(** * Telemetry channel and command dispatcher of the Tello dashboard

    Shallow embedding of [src/tello-frontend/src/types/index.ts]:
    - [useWebSocket] (hooks/useWebSocket.ts): the React hook owning the
      WebSocket handle [ws], the flags [isConnected], the slots
      [droneState] and [videoFrame], and the callbacks [connect],
      [disconnect] together with the [useEffect] cleanup keyed on [ws];
    - [fetchWithBody] and [useDroneCommands] (hooks/useDroneCommands.ts).

    The browser is modelled as a world that holds the hook state, the
    ready state of every WebSocket created so far (indexed by creation
    order) and the list of uncaught exceptions reported by the event loop.
    Browser events (socket open / message / close), user calls of the
    hook's callbacks and React's effect flush are the steps of [step]. *)

From Stdlib Require Import ZArith String Ascii.
From stdpp Require Import base list option.

Open Scope string_scope.
Local Set Warnings "-register-all".

(** ** JavaScript values *)

(** Values produced by [JSON.parse] (all but [JUndefined]) and read back
    with property accesses.  Numbers are integers: the code only moves
    them around and never computes with them. *)
Inductive jsval : Type :=
| JUndefined
| JNull
| JBool (b : bool)
| JNum (n : Z)
| JStr (s : string)
| JArr (xs : list jsval)
| JObj (fields : list (string * jsval)).

(** Exceptions thrown by the code: [JSON.parse] throws a [SyntaxError],
    reading a property of [null]/[undefined] a [TypeError], a failed
    [fetch] a [TypeError], and [fetchWithBody] an [Error] with a message. *)
Inductive jserror : Type :=
| SyntaxError
| TypeError
| Error (message : string).

(** Completion of a JavaScript evaluation: a value, or a thrown exception. *)
Inductive completion (A : Type) : Type :=
| Normal (a : A)
| Thrown (e : jserror).
Arguments Normal {A} a.
Arguments Thrown {A} e.

(** Own-property lookup.  [JSON.parse] keeps the last of duplicated keys,
    so the search runs from the end of the field list. *)
Fixpoint assoc_get (k : string) (fs : list (string * jsval)) : option jsval :=
  match fs with
  | [] => None
  | (k', v) :: fs' =>
      match assoc_get k fs' with
      | Some v' => Some v'
      | None => if String.eqb k k' then Some v else None
      end
  end.

(** [v.k] for the property names the code reads ([type], [data], [frame]):
    a [TypeError] on [null] and [undefined], [undefined] for a missing
    property and on other primitives and arrays (none of those names is
    a property of their prototypes). *)
Definition get_prop (v : jsval) (k : string) : completion jsval :=
  match v with
  | JUndefined | JNull => Thrown TypeError
  | JObj fs => Normal (default JUndefined (assoc_get k fs))
  | _ => Normal JUndefined
  end.

(** [v === s] for a string literal [s]. *)
Definition strict_eq_str (v : jsval) (s : string) : bool :=
  match v with
  | JStr t => String.eqb t s
  | _ => false
  end.

(** ** The browser world *)

(** [WebSocket.readyState]. *)
Inductive ready_state : Type :=
| CONNECTING
| OPEN
| CLOSING
| CLOSED.

Record world : Type := mk_world {
  (* state of the [useWebSocket] hook *)
  ws : option nat;             (* useState<WebSocket | null>(null) *)
  isConnected : bool;          (* useState(false) *)
  droneState : jsval;          (* useState<DroneState | null>(null) *)
  videoFrame : jsval;          (* useState<string | null>(null) *)
  (* the [ws] captured by the last committed run of the [useEffect] *)
  effect_ws : option nat;
  (* every WebSocket created so far, by creation order *)
  sockets : list ready_state;
  (* exceptions that escaped an event handler, reported by the event loop *)
  uncaught : list jserror
}.

Definition init_world : world :=
  mk_world None false JNull JNull None [] [].

Definition set_ws (x : option nat) (w : world) : world :=
  mk_world x (isConnected w) (droneState w) (videoFrame w) (effect_ws w)
    (sockets w) (uncaught w).
Definition setIsConnected (b : bool) (w : world) : world :=
  mk_world (ws w) b (droneState w) (videoFrame w) (effect_ws w)
    (sockets w) (uncaught w).
Definition set_droneState (v : jsval) (w : world) : world :=
  mk_world (ws w) (isConnected w) v (videoFrame w) (effect_ws w)
    (sockets w) (uncaught w).
Definition set_videoFrame (v : jsval) (w : world) : world :=
  mk_world (ws w) (isConnected w) (droneState w) v (effect_ws w)
    (sockets w) (uncaught w).
Definition set_effect_ws (x : option nat) (w : world) : world :=
  mk_world (ws w) (isConnected w) (droneState w) (videoFrame w) x
    (sockets w) (uncaught w).
Definition set_sockets (ss : list ready_state) (w : world) : world :=
  mk_world (ws w) (isConnected w) (droneState w) (videoFrame w)
    (effect_ws w) ss (uncaught w).
Definition report_uncaught (e : jserror) (w : world) : world :=
  mk_world (ws w) (isConnected w) (droneState w) (videoFrame w)
    (effect_ws w) (sockets w) (uncaught w ++ [e]).

(** ** The JavaScript execution monad: state of the world, exceptions.
    As in JavaScript, effects performed before a throw persist. *)
Definition JS (A : Type) : Type := world -> world * completion A.

Global Instance js_ret : MRet JS := fun A a w => (w, Normal a).
Global Instance js_bind : MBind JS := fun A B k m w =>
  match m w with
  | (w1, Normal a) => k a w1
  | (w1, Thrown e) => (w1, Thrown e)
  end.
Definition js_throw {A} (e : jserror) : JS A := fun w => (w, Thrown e).
Definition js_modify (f : world -> world) : JS unit := fun w => (f w, Normal tt).
Definition js_get {A} (f : world -> A) : JS A := fun w => (w, Normal (f w)).
Definition js_lift {A} (c : completion A) : JS A :=
  match c with
  | Normal a => mret a
  | Thrown e => js_throw e
  end.

(** ** The [useWebSocket] hook *)

Section Channel.

(** [JSON.parse], a built-in: [None] is the [SyntaxError] it throws. *)
Variable JSON_parse : string -> option jsval.

(** [websocket.onmessage = (event) => { ... }] *)
Definition onmessage (event_data : string) : JS unit :=
  data ← js_lift (match JSON_parse event_data with
                   | Some v => Normal v
                   | None => Thrown SyntaxError
                   end);
  t1 ← js_lift (get_prop data "type");
  if strict_eq_str t1 "state_update" then
    d ← js_lift (get_prop data "data");
    js_modify (set_droneState d)
  else
    t2 ← js_lift (get_prop data "type");
    if strict_eq_str t2 "video_frame" then
      d ← js_lift (get_prop data "data");
      f ← js_lift (get_prop d "frame");
      js_modify (set_videoFrame f)
    else mret tt.

(** [websocket.onopen = () => { setIsConnected(true); }] *)
Definition onopen : JS unit := js_modify (setIsConnected true).

(** [websocket.onclose = () => { setIsConnected(false); }] *)
Definition onclose : JS unit := js_modify (setIsConnected false).

(** [WebSocket.prototype.close()]: starts the closing handshake of a
    connecting or open socket; does nothing on a closing or closed one. *)
Definition ws_close_state (rs : ready_state) : ready_state :=
  match rs with
  | CONNECTING | OPEN => CLOSING
  | CLOSING => CLOSING
  | CLOSED => CLOSED
  end.

Definition ws_close (sid : nat) (w : world) : world :=
  match sockets w !! sid with
  | Some rs => set_sockets (<[sid := ws_close_state rs]> (sockets w)) w
  | None => w
  end.

(** [connect]: [new WebSocket('ws://localhost:8000/ws')], install the three
    handlers (the same for every socket: they close over the hook's
    setters), then [setWs(websocket)].  The new socket is [CONNECTING]. *)
Definition connect (w : world) : world :=
  let sid := length (sockets w) in
  set_ws (Some sid) (set_sockets (sockets w ++ [CONNECTING]) w).

(** [disconnect = useCallback(() => { if (ws) { ws.close(); setWs(null); } }, [ws])]:
    the callback reads the [ws] of the last committed render, which is
    the handle the [ws] effect captured ([effect_ws]); a [setWs] not yet
    committed is not seen. *)
Definition disconnect (w : world) : world :=
  match effect_ws w with
  | Some sid => set_ws None (ws_close sid w)
  | None => w
  end.

(** React's commit of the [useEffect(() => () => { if (ws) ws.close(); },
    [ws])]: when [ws] changed since the last committed run, the cleanup of
    that run closes the socket it captured, and the new run captures the
    current [ws]. *)
Definition effect_flush (w : world) : world :=
  if decide (effect_ws w = ws w) then w
  else
    let w1 := match effect_ws w with
              | Some old => ws_close old w
              | None => w
              end in
    set_effect_ws (ws w) w1.

(** Steps of the world. *)
Inductive event : Type :=
| UserConnect                       (* the hook's [connect()] is called *)
| UserDisconnect                    (* the hook's [disconnect()] is called *)
| EffectFlush                       (* React re-renders and runs effects *)
| SockOpen (sid : nat)              (* the socket's open event *)
| SockMessage (sid : nat) (data : string)  (* a message event *)
| SockClose (sid : nat).            (* the socket's close event *)

(** Dispatching an event to a handler: an exception thrown by the handler
    is reported by the event loop and does not stop it; the effects the
    handler performed before throwing persist. *)
Definition dispatch (h : JS unit) (w : world) : world :=
  match h w with
  | (w1, Normal _) => w1
  | (w1, Thrown e) => report_uncaught e w1
  end.

(** [None]: the browser cannot deliver the event in this world.  A message
    event is delivered only to an [OPEN] socket; the open event only to a
    [CONNECTING] one; the close event to any socket not yet [CLOSED]. *)
Definition step (w : world) (e : event) : option world :=
  match e with
  | UserConnect => Some (connect w)
  | UserDisconnect => Some (disconnect w)
  | EffectFlush => Some (effect_flush w)
  | SockOpen sid =>
      match sockets w !! sid with
      | Some CONNECTING =>
          Some (dispatch onopen (set_sockets (<[sid := OPEN]> (sockets w)) w))
      | _ => None
      end
  | SockMessage sid d =>
      match sockets w !! sid with
      | Some OPEN => Some (dispatch (onmessage d) w)
      | _ => None
      end
  | SockClose sid =>
      match sockets w !! sid with
      | Some CLOSED | None => None
      | Some _ =>
          Some (dispatch onclose (set_sockets (<[sid := CLOSED]> (sockets w)) w))
      end
  end.

Fixpoint run (w : world) (tr : list event) : option world :=
  match tr with
  | [] => Some w
  | e :: tr' => w' ← step w e; run w' tr'
  end.

End Channel.

(** ** The [useDroneCommands] hook *)

Module DroneCommands.

Definition API_BASE : string := "http://localhost:8000".

(** A request handed to [fetch].  [req_body] is the value given to
    [JSON.stringify]; the wire body is its serialization. *)
Record request : Type := mk_request {
  req_method : string;
  req_url : string;
  req_headers : list (string * string);
  req_body : jsval
}.

(** What [fetch] settles with: a rejection (network failure), or a
    response with its status and body text. *)
Inductive fetch_outcome : Type :=
| NetworkFailure
| Response (status : Z) (body : string).

(** [Response.ok]: the status is in the range 200-299. *)
Definition response_ok (status : Z) : bool := (200 <=? status)%Z && (status <=? 299)%Z.

Section WithFetch.

Variable JSON_parse : string -> option jsval.

(** The backend: the outcome [fetch] settles with for a request. *)
Variable fetch : request -> fetch_outcome.

(** A command run: the requests issued, in order, and how the returned
    promise settles. *)
Definition cmd_result : Type := list request * completion jsval.

(** [async function fetchWithBody(endpoint, body = {})] *)
Definition fetchWithBody (endpoint : string) (body : jsval) : cmd_result :=
  let req := mk_request "POST" (String.append API_BASE endpoint)
               [("Content-Type", "application/json")] body in
  ([req],
   match fetch req with
   | NetworkFailure => Thrown TypeError
   | Response status text =>
       if negb (response_ok status) then Thrown (Error "Command failed")
       else match JSON_parse text with        (* response.json() *)
            | Some v => Normal v
            | None => Thrown SyntaxError
            end
   end).

(** [body: any = {}] *)
Definition empty_body : jsval := JObj [].

Definition connect : cmd_result := fetchWithBody "/connect" empty_body.
Definition disconnect : cmd_result := fetchWithBody "/disconnect" empty_body.
Definition takeoff : cmd_result := fetchWithBody "/takeoff" empty_body.
Definition land : cmd_result := fetchWithBody "/land" empty_body.
Definition move (direction : string) (distance : Z) : cmd_result :=
  fetchWithBody "/move" (JObj [("direction", JStr direction); ("distance", JNum distance)]).
Definition rotate (direction : string) (degrees : Z) : cmd_result :=
  fetchWithBody "/rotate" (JObj [("direction", JStr direction); ("degrees", JNum degrees)]).
Definition flip (direction : string) : cmd_result :=
  fetchWithBody "/flip" (JObj [("direction", JStr direction)]).
Definition setSpeed (speed : Z) : cmd_result :=
  fetchWithBody "/speed" (JObj [("speed", JNum speed)]).
Definition toggleTracking (enabled : bool) : cmd_result :=
  fetchWithBody "/track_object" (JObj [("enabled", JBool enabled)]).

(** [useMutation(fn).mutateAsync]: react-query runs a mutation once
    (mutations default to [retry: 0]) and settles as [fn] does. *)
Definition mutateAsync {V : Type} (fn : V -> cmd_result) : V -> cmd_result := fn.

(** The nine operations the hook returns. *)
Inductive operation : Type :=
| OpConnect
| OpDisconnect
| OpTakeoff
| OpLand
| OpMove (direction : string) (distance : Z)
| OpRotate (direction : string) (degrees : Z)
| OpFlip (direction : string)
| OpSetSpeed (speed : Z)
| OpToggleTracking (enabled : bool).

(** Calling an operation of the object returned by [useDroneCommands()]. *)
Definition useDroneCommands (op : operation) : cmd_result :=
  match op with
  | OpConnect => mutateAsync (fun _ : unit => connect) tt
  | OpDisconnect => mutateAsync (fun _ : unit => disconnect) tt
  | OpTakeoff => mutateAsync (fun _ : unit => takeoff) tt
  | OpLand => mutateAsync (fun _ : unit => land) tt
  | OpMove d n =>
      mutateAsync (fun '(direction, distance) => move direction distance) (d, n)
  | OpRotate d n =>
      mutateAsync (fun '(direction, degrees) => rotate direction degrees) (d, n)
  | OpFlip d => mutateAsync flip d
  | OpSetSpeed s => mutateAsync setSpeed s
  | OpToggleTracking b => mutateAsync toggleTracking b
  end.

End WithFetch.

End DroneCommands.

(** ** A JSON parser for the escape-free subset of JSON

    It agrees with [JSON.parse] on the texts it accepts: [null], [true],
    [false], integers, strings without escapes or control characters,
    arrays and objects.  It is used to run the model on concrete
    messages; the theorems hold for any parser. *)
Module MiniJSON.

Definition is_ws (c : ascii) : bool :=
  match nat_of_ascii c with 9 | 10 | 13 | 32 => true | _ => false end.

Fixpoint skip_ws (s : string) : string :=
  match s with
  | String c s' => if is_ws c then skip_ws s' else s
  | EmptyString => EmptyString
  end.

Definition is_digit (c : ascii) : bool :=
  (48 <=? nat_of_ascii c)%nat && (nat_of_ascii c <=? 57)%nat.

(** The characters of a string literal up to its closing quote. *)
Fixpoint string_body (s : string) : option (string * string) :=
  match s with
  | EmptyString => None
  | String c s' =>
      if (nat_of_ascii c =? 34)%nat then Some (EmptyString, s')
      else if (nat_of_ascii c =? 92)%nat || (nat_of_ascii c <? 32)%nat then None
      else match string_body s' with
           | Some (b, rest) => Some (String c b, rest)
           | None => None
           end
  end.

(** The digits at the front of [s], most significant first. *)
Fixpoint digits (s : string) : list Z * string :=
  match s with
  | String c s' =>
      if is_digit c then
        let '(ds, rest) := digits s' in
        ((Z.of_nat (nat_of_ascii c) - 48)%Z :: ds, rest)
      else ([], s)
  | EmptyString => ([], s)
  end.

Definition number (s : string) : option (Z * string) :=
  match digits s with
  | ([], _) => None
  | (0%Z :: _ :: _, _) => None            (* no leading zeros *)
  | (ds, rest) => Some (fold_left (fun acc d => 10 * acc + d)%Z ds 0%Z, rest)
  end.

Definition starts (c : nat) (s : string) : option string :=
  match s with
  | String c' s' => if (nat_of_ascii c' =? c)%nat then Some s' else None
  | EmptyString => None
  end.

Fixpoint keyword (k s : string) : option string :=
  match k with
  | EmptyString => Some s
  | String c k' =>
      match starts (nat_of_ascii c) s with
      | Some s' => keyword k' s'
      | None => None
      end
  end.

Fixpoint value (fuel : nat) (s : string) : option (jsval * string) :=
  match fuel with
  | O => None
  | S fuel' =>
      let s := skip_ws s in
      match s with
      | EmptyString => None
      | String c s' =>
          match nat_of_ascii c with
          | 110 => rest ← keyword "ull" s'; Some (JNull, rest)
          | 116 => rest ← keyword "rue" s'; Some (JBool true, rest)
          | 102 => rest ← keyword "alse" s'; Some (JBool false, rest)
          | 34 => '(b, rest) ← string_body s'; Some (JStr b, rest)
          | 45 => '(n, rest) ← number s'; Some (JNum (- n)%Z, rest)
          | 91 =>
              match starts 93 (skip_ws s') with
              | Some rest => Some (JArr [], rest)
              | None => '(xs, rest) ← elements fuel' s'; Some (JArr xs, rest)
              end
          | 123 =>
              match starts 125 (skip_ws s') with
              | Some rest => Some (JObj [], rest)
              | None => '(fs, rest) ← members fuel' s'; Some (JObj fs, rest)
              end
          | _ => '(n, rest) ← number s; Some (JNum n, rest)
          end
      end
  end
(** [value (, value)* ]] *)
with elements (fuel : nat) (s : string) : option (list jsval * string) :=
  match fuel with
  | O => None
  | S fuel' =>
      '(v, rest) ← value fuel' s;
      let rest := skip_ws rest in
      match starts 44 rest with
      | Some rest' => '(vs, r) ← elements fuel' rest'; Some (v :: vs, r)
      | None => rest' ← starts 93 rest; Some ([v], rest')
      end
  end
(** [string : value (, string : value)* }] *)
with members (fuel : nat) (s : string) : option (list (string * jsval) * string) :=
  match fuel with
  | O => None
  | S fuel' =>
      s1 ← starts 34 (skip_ws s);
      '(k, s2) ← string_body s1;
      s3 ← starts 58 (skip_ws s2);
      '(v, rest) ← value fuel' s3;
      let rest := skip_ws rest in
      match starts 44 rest with
      | Some rest' => '(fs, r) ← members fuel' rest'; Some ((k, v) :: fs, r)
      | None => rest' ← starts 125 rest; Some ([(k, v)], rest')
      end
  end.

Definition JSON_parse (s : string) : option jsval :=
  '(v, rest) ← value (S (String.length s)) s;
  match skip_ws rest with
  | EmptyString => Some v
  | _ => None
  end.

(** JSON text written with single quotes in place of double quotes. *)
Fixpoint jtext (s : string) : string :=
  match s with
  | EmptyString => EmptyString
  | String c s' =>
      String (if (nat_of_ascii c =? 39)%nat then ascii_of_nat 34 else c) (jtext s')
  end.

End MiniJSON.

(** ** Properties of the telemetry channel *)

(** The envelope [{type, data}] of an inbound message, read as the spec
    describes it: the [type] tag (when it is a string) and the [data]
    payload (undefined when absent). *)
Definition envelope_type (v : jsval) : option string :=
  match v with
  | JObj fs =>
      match assoc_get "type" fs with
      | Some (JStr t) => Some t
      | _ => None
      end
  | _ => None
  end.

Definition envelope_data (v : jsval) : jsval :=
  match v with
  | JObj fs => default JUndefined (assoc_get "data" fs)
  | _ => JUndefined
  end.

Definition has_tag (v : jsval) (tag : string) : bool :=
  match envelope_type v with
  | Some t => String.eqb t tag
  | None => false
  end.

Section SpecSide.

Variable JSON_parse : string -> option jsval.

(** Spec side of C1: the payload of the last [state_update] message of
    the trace, [prev] when there is none. *)
Fixpoint latest_snapshot (prev : jsval) (tr : list event) : jsval :=
  match tr with
  | [] => prev
  | SockMessage _ d :: tr' =>
      match JSON_parse d with
      | Some v =>
          if has_tag v "state_update" then latest_snapshot (envelope_data v) tr'
          else latest_snapshot prev tr'
      | None => latest_snapshot prev tr'
      end
  | _ :: tr' => latest_snapshot prev tr'
  end.

(** [data.frame] of a [video_frame] envelope: [None] when [data] is
    null or undefined, where reading [frame] has no value. *)
Definition frame_field (data : jsval) : option jsval :=
  match data with
  | JUndefined | JNull => None
  | JObj fs => Some (default JUndefined (assoc_get "frame" fs))
  | _ => Some JUndefined
  end.

(** Spec side of C2 as amended: the frame of the last [video_frame]
    message whose [data] is present and not null. *)
Fixpoint latest_frame (prev : jsval) (tr : list event) : jsval :=
  match tr with
  | [] => prev
  | SockMessage _ d :: tr' =>
      match JSON_parse d with
      | Some v =>
          if has_tag v "video_frame" then
            match frame_field (envelope_data v) with
            | Some f => latest_frame f tr'
            | None => latest_frame prev tr'
            end
          else latest_frame prev tr'
      | None => latest_frame prev tr'
      end
  | _ :: tr' => latest_frame prev tr'
  end.

(** Spec side of C2 as stated: the [data.frame] of the last [video_frame]
    message, whatever its [data] (absent reads as undefined). *)
Fixpoint claimed_latest_frame (prev : jsval) (tr : list event) : jsval :=
  match tr with
  | [] => prev
  | SockMessage _ d :: tr' =>
      match JSON_parse d with
      | Some v =>
          if has_tag v "video_frame" then
            claimed_latest_frame (default JUndefined (frame_field (envelope_data v))) tr'
          else claimed_latest_frame prev tr'
      | None => claimed_latest_frame prev tr'
      end
  | _ :: tr' => claimed_latest_frame prev tr'
  end.

(** A message lacking a [type] field: an object without that key, or
    any other JSON value. *)
Definition missing_type (v : jsval) : Prop :=
  match v with
  | JObj fs => assoc_get "type" fs = None
  | _ => True
  end.

End SpecSide.

(** ** The dashboard: [DroneController] and [DroneControlPanel]

    [DroneController] (components/DroneController.tsx) wires the two hooks
    to the [DroneControlPanel] (components/DroneControlPanel.tsx).  A
    click runs the handler the panel bound to the control, to completion:
    each [await]ed command settles from the backend's answer before the
    next statement runs. *)
Module Dashboard.

(** [toast({title, description, variant})].  Every error the handlers can
    catch ([SyntaxError], [TypeError], [Error]) is an [instanceof Error],
    so the description is [error.message]: [DescError e]. *)
Inductive toast_desc : Type :=
| DescText (s : string)
| DescError (e : jserror).

Record toast : Type := mk_toast {
  toast_title : string;
  toast_description : toast_desc;
  toast_destructive : bool      (* variant: "destructive" *)
}.

Record ui : Type := mk_ui {
  hook : world;                 (* useWebSocket() *)
  speed : Z;                    (* DroneControlPanel: useState(50) *)
  isTracking : bool;            (* DroneControlPanel: useState(false) *)
  sent : list DroneCommands.request;   (* requests issued, in order *)
  toasts : list toast;          (* toasts shown, in order *)
  rejections : list jserror     (* click handlers whose promise rejected *)
}.

Definition init_ui : ui := mk_ui init_world 50 false [] [] [].

Definition set_hook (w : world) (u : ui) : ui :=
  mk_ui w (speed u) (isTracking u) (sent u) (toasts u) (rejections u).
Definition set_speed (s : Z) (u : ui) : ui :=
  mk_ui (hook u) s (isTracking u) (sent u) (toasts u) (rejections u).
Definition set_isTracking (b : bool) (u : ui) : ui :=
  mk_ui (hook u) (speed u) b (sent u) (toasts u) (rejections u).
Definition add_sent (rs : list DroneCommands.request) (u : ui) : ui :=
  mk_ui (hook u) (speed u) (isTracking u) (sent u ++ rs) (toasts u) (rejections u).
Definition add_toast (t : toast) (u : ui) : ui :=
  mk_ui (hook u) (speed u) (isTracking u) (sent u) (toasts u ++ [t]) (rejections u).
Definition add_rejection (e : jserror) (u : ui) : ui :=
  mk_ui (hook u) (speed u) (isTracking u) (sent u) (toasts u) (rejections u ++ [e]).

(** The controls of the panel. *)
Inductive control : Type :=
| ConnectionButton              (* Connect / Disconnect *)
| TakeoffLandButton             (* Take Off / Land *)
| ArrowUpButton | ArrowLeftButton | ArrowDownButton | ArrowRightButton
| RotateCcwButton | RotateCwButton
| SpeedSlider (value : Z)       (* onValueChange([value]) of the single-thumb slider *)
| FlipForwardButton
| TrackButton.

Section Handlers.

Variable JSON_parse : string -> option jsval.
Variable fetch : DroneCommands.request -> DroneCommands.fetch_outcome.

(** [await command]: its requests are issued, its outcome returned. *)
Definition issue (c : DroneCommands.cmd_result) (u : ui) : ui * completion jsval :=
  (add_sent (fst c) u, snd c).

(** A panel prop bound directly to a [mutateAsync] (onTakeoff, onLand,
    onFlip, onSpeedChange, onToggleTracking): nothing catches its
    rejection. *)
Definition fire (c : DroneCommands.cmd_result) (u : ui) : ui :=
  let '(u1, r) := issue c u in
  match r with
  | Normal _ => u1
  | Thrown e => add_rejection e u1
  end.

(** [handleConnect]: [await connect(); await wsConnect(); toast(...)],
    the failure of either caught into a "Connection Failed" toast. *)
Definition handleConnect (u : ui) : ui :=
  let '(u1, r) := issue (DroneCommands.connect JSON_parse fetch) u in
  match r with
  | Thrown e => add_toast (mk_toast "Connection Failed" (DescError e) true) u1
  | Normal _ =>
      add_toast (mk_toast "Connected" (DescText "Successfully connected to the drone.") false)
        (set_hook (connect (hook u1)) u1)
  end.

(** [handleDisconnect]: [await disconnect(); await wsDisconnect(); toast(...)]. *)
Definition handleDisconnect (u : ui) : ui :=
  let '(u1, r) := issue (DroneCommands.disconnect JSON_parse fetch) u in
  match r with
  | Thrown e => add_toast (mk_toast "Disconnection Failed" (DescError e) true) u1
  | Normal _ =>
      add_toast (mk_toast "Disconnected" (DescText "Successfully disconnected from the drone.") false)
        (set_hook (disconnect (hook u1)) u1)
  end.

(** [handleMove]: [await move({ direction, distance })], a failure caught
    into a "Movement Failed" toast. *)
Definition handleMove (direction : string) (distance : Z) (u : ui) : ui :=
  let '(u1, r) := issue (DroneCommands.useDroneCommands JSON_parse fetch
                           (DroneCommands.OpMove direction distance)) u in
  match r with
  | Thrown e => add_toast (mk_toast "Movement Failed" (DescError e) true) u1
  | Normal _ => u1
  end.

(** [handleRotate]: [await rotate({ direction, degrees })]. *)
Definition handleRotate (direction : string) (degrees : Z) (u : ui) : ui :=
  let '(u1, r) := issue (DroneCommands.useDroneCommands JSON_parse fetch
                           (DroneCommands.OpRotate direction degrees)) u in
  match r with
  | Thrown e => add_toast (mk_toast "Rotation Failed" (DescError e) true) u1
  | Normal _ => u1
  end.

(** [handleSpeedChange]: [setSpeed(newSpeed); onSpeedChange(newSpeed)]. *)
Definition handleSpeedChange (newSpeed : Z) (u : ui) : ui :=
  fire (DroneCommands.useDroneCommands JSON_parse fetch (DroneCommands.OpSetSpeed newSpeed))
    (set_speed newSpeed u).

(** [handleToggleTracking]: [setIsTracking(!isTracking);
    onToggleTracking(!isTracking)]. *)
Definition handleToggleTracking (u : ui) : ui :=
  let t := negb (isTracking u) in
  fire (DroneCommands.useDroneCommands JSON_parse fetch (DroneCommands.OpToggleTracking t))
    (set_isTracking t u).

(** A click on a control of [DroneControlPanel]: every control but the
    connection button is [disabled={!isConnected}], and a disabled
    control does nothing. *)
Definition click (c : control) (u : ui) : ui :=
  let connected := isConnected (hook u) in
  match c with
  | ConnectionButton => if connected then handleDisconnect u else handleConnect u
  | _ =>
      if negb connected then u
      else
        match c with
        | TakeoffLandButton =>
            if connected
            then fire (DroneCommands.useDroneCommands JSON_parse fetch DroneCommands.OpLand) u
            else fire (DroneCommands.useDroneCommands JSON_parse fetch DroneCommands.OpTakeoff) u
        | ArrowUpButton => handleMove "forward" 30 u
        | ArrowLeftButton => handleMove "left" 30 u
        | ArrowDownButton => handleMove "down" 30 u
        | ArrowRightButton => handleMove "right" 30 u
        | RotateCcwButton => handleRotate "counterclockwise" 90 u
        | RotateCwButton => handleRotate "clockwise" 90 u
        | SpeedSlider v => handleSpeedChange v u
        | FlipForwardButton =>
            fire (DroneCommands.useDroneCommands JSON_parse fetch (DroneCommands.OpFlip "forward")) u
        | TrackButton => handleToggleTracking u
        | ConnectionButton => u
        end
  end.

(** Events of the dashboard: a click, or a browser event of the channel. *)
Inductive ui_event : Type :=
| Click (c : control)
| Browser (e : event).

Definition ui_step (u : ui) (e : ui_event) : option ui :=
  match e with
  | Click c => Some (click c u)
  | Browser be => w ← step JSON_parse (hook u) be; Some (set_hook w u)
  end.

Fixpoint ui_run (u : ui) (tr : list ui_event) : option ui :=
  match tr with
  | [] => Some u
  | e :: tr' => u' ← ui_step u e; ui_run u' tr'
  end.

End Handlers.

End Dashboard.

(** ** Socket lifecycle *)

(** A socket that can still deliver events to the hook's handlers. *)
Definition live (o : option ready_state) : Prop :=
  o = Some CONNECTING \/ o = Some OPEN.

(** Traces in which React commits (runs the [ws] effect) right after each
    call of [connect()] or [disconnect()], before any other event. *)
Inductive committed : list event -> Prop :=
| committed_nil : committed []
| committed_connect tr : committed tr -> committed (UserConnect :: EffectFlush :: tr)
| committed_disconnect tr : committed tr -> committed (UserDisconnect :: EffectFlush :: tr)
| committed_other e tr :
    e <> UserConnect -> e <> UserDisconnect -> committed tr -> committed (e :: tr).

(** Events that leave the telemetry and video slots alone. *)
Definition not_message (e : event) : Prop :=
  match e with
  | SockMessage _ _ => False
  | _ => True
  end.

Definition takeoff_url : string := "http://localhost:8000/takeoff".

(** The movement requests the panel can send. *)
Definition panel_motion_request (r : DroneCommands.request) : Prop :=
  (DroneCommands.req_url r = "http://localhost:8000/move" ->
     exists d, In d ["forward"; "left"; "down"; "right"] /\
       DroneCommands.req_body r = JObj [("direction", JStr d); ("distance", JNum 30)]) /\
  (DroneCommands.req_url r = "http://localhost:8000/rotate" ->
     exists d, In d ["counterclockwise"; "clockwise"] /\
       DroneCommands.req_body r = JObj [("direction", JStr d); ("degrees", JNum 90)]).

(** The invariant of committed traces: the effect has captured the held
    socket, the held socket exists, and every live socket is the held
    one. *)
Definition single_live (w : world) : Prop :=
  effect_ws w = ws w /\
  (forall o, ws w = Some o -> o < length (sockets w)) /\
  (forall i, live (sockets w !! i) -> ws w = Some i).

(** The invariant after two [connect()] calls in one render: socket [n],
    made by the first call, is live and neither held nor captured. *)
Definition orphaned (n : nat) (w : world) : Prop :=
  ws w <> Some n /\ effect_ws w <> Some n /\ live (sockets w !! n) /\
  (forall o, ws w = Some o -> n < o) /\ n < length (sockets w).

(** ** Rendering: [StatusBar], [TelemetryPanel], [VideoFeed] and the
    component tree of [DroneController] *)

(** A render either returns its output or throws. *)
Global Instance completion_ret : MRet completion := fun A a => Normal a.
Global Instance completion_bind : MBind completion := fun A B k c =>
  match c with
  | Normal a => k a
  | Thrown e => Thrown e
  end.

Module Render.

(** [Number.prototype.toString()] on the integers of the model: the
    decimal digits, most significant first. *)
Fixpoint digits_of (fuel : nat) (n : Z) (acc : string) : string :=
  match fuel with
  | O => acc
  | S f =>
      let acc' := String (ascii_of_nat (48 + Z.to_nat (n mod 10))) acc in
      if (n / 10 =? 0)%Z then acc' else digits_of f (n / 10) acc'
  end.

Definition number_to_string (n : Z) : string :=
  if (n <? 0)%Z then "-" ++ digits_of (S (Z.to_nat (Z.log2 (- n)))) (- n) EmptyString
  else digits_of (S (Z.to_nat (Z.log2 n))) n EmptyString.

(** [String(v)], as a template literal [`${v}`] converts it. *)
Fixpoint to_string (v : jsval) : string :=
  match v with
  | JUndefined => "undefined"
  | JNull => "null"
  | JBool b => if b then "true" else "false"
  | JNum n => number_to_string n
  | JStr s => s
  | JArr vs =>
      (fix join (vs : list jsval) : string :=
         match vs with
         | [] => EmptyString
         | [x] => match x with JUndefined | JNull => EmptyString | _ => to_string x end
         | x :: r =>
             (match x with JUndefined | JNull => EmptyString | _ => to_string x end)
               ++ "," ++ join r
         end) vs
  | JObj _ => "[object Object]"
  end.

(** JavaScript truthiness. *)
Definition truthy (v : jsval) : bool :=
  match v with
  | JUndefined | JNull => false
  | JBool b => b
  | JNum n => negb (n =? 0)%Z
  | JStr s => negb (String.eqb s EmptyString)
  | JArr _ | JObj _ => true
  end.

(** The text React renders for a JSX child [{v}]: nothing for [null],
    [undefined] and booleans, the children of an array one after the
    other, and a thrown error for a plain object. *)
Fixpoint react_text (v : jsval) : completion string :=
  match v with
  | JUndefined | JNull | JBool _ => Normal EmptyString
  | JNum n => Normal (number_to_string n)
  | JStr s => Normal s
  | JArr vs =>
      (fix go (vs : list jsval) : completion string :=
         match vs with
         | [] => Normal EmptyString
         | x :: r => s ← react_text x; t ← go r; Normal (s ++ t)
         end) vs
  | JObj _ => Thrown (Error "Objects are not valid as a React child")
  end.

(** [v?.k] *)
Definition opt_prop (v : jsval) (k : string) : completion jsval :=
  match v with
  | JUndefined | JNull => Normal JUndefined
  | _ => get_prop v k
  end.

(** A destructured parameter with a default, [{ x = d }]: the default
    replaces [undefined] only. *)
Definition default_param (v d : jsval) : jsval :=
  match v with
  | JUndefined => d
  | _ => v
  end.

(** [v ?? d] *)
Definition nullish (v d : jsval) : jsval :=
  match v with
  | JUndefined | JNull => d
  | _ => v
  end.

(** [StatusBar]: the label, then the texts of the children
    [{batteryLevel}] (before [%]) and [{temperature}] (before the degree
    sign). *)
Record status_view := mk_status_view {
  status_label : string;
  battery_text : string;
  temperature_text : string
}.

Definition StatusBar (isConnected : bool) (batteryLevel temperature : jsval)
    : completion status_view :=
  let batteryLevel := default_param batteryLevel (JNum 0) in
  let temperature := default_param temperature (JNum 0) in
  b ← react_text batteryLevel;
  t ← react_text temperature;
  Normal (mk_status_view (if isConnected then "Connected" else "Disconnected") b t).

(** [TelemetryPanel]: the texts of [{height ?? 0}], [{speed?.x ?? 0}],
    [{speed?.y ?? 0}], [{speed?.z ?? 0}] and [{flightTime ?? 0}]. *)
Record telemetry_view := mk_telemetry_view {
  height_text : string;
  speed_x_text : string;
  speed_y_text : string;
  speed_z_text : string;
  flight_time_text : string
}.

Definition TelemetryPanel (height speed flightTime : jsval) : completion telemetry_view :=
  h ← react_text (nullish height (JNum 0));
  sx ← opt_prop speed "x"; x ← react_text (nullish sx (JNum 0));
  sy ← opt_prop speed "y"; y ← react_text (nullish sy (JNum 0));
  sz ← opt_prop speed "z"; z ← react_text (nullish sz (JNum 0));
  ft ← react_text (nullish flightTime (JNum 0));
  Normal (mk_telemetry_view h x y z ft).

(** [VideoFeed]: [videoFrame ? <img src={`data:image/jpeg;base64,${videoFrame}`} />
    : <div>No video feed available</div>]. *)
Inductive feed_view :=
| FeedImage (src : string)
| FeedPlaceholder.

Definition VideoFeed (videoFrame : jsval) : feed_view :=
  if truthy videoFrame then FeedImage ("data:image/jpeg;base64," ++ to_string videoFrame)
  else FeedPlaceholder.

(** The displays of [DroneController]'s tree (the control panel's
    handlers are modelled in [Dashboard]). *)
Record view := mk_view {
  status : status_view;
  feed : feed_view;
  telemetry : telemetry_view
}.

Definition DroneController_view (w : world) : completion view :=
  battery ← opt_prop (droneState w) "battery";
  temperature ← opt_prop (droneState w) "temperature";
  height ← opt_prop (droneState w) "height";
  speed ← opt_prop (droneState w) "speed";
  flight_time ← opt_prop (droneState w) "flight_time";
  sb ← StatusBar (isConnected w) battery temperature;
  tp ← TelemetryPanel height speed flight_time;
  Normal (mk_view sb (VideoFeed (videoFrame w)) tp).

End Render.

(** ** [WifiSelector] *)

Module WifiSelector.

Record WiFiNetwork := mk_network {
  ssid : string;
  signal_strength : Z;
  connected : bool
}.

Definition TELLO_NETWORK_PREFIX : string := "TELLO-".

Inductive variant := VariantDefault | VariantDestructive.

Record wtoast := mk_wtoast {
  wtoast_title : string;
  wtoast_description : string;
  wtoast_variant : variant
}.

(** The component's state, its toasts, and the connections waiting on
    their [setTimeout(resolve, 2000)], oldest first. *)
Record state := mk_state {
  networks : list WiFiNetwork;
  isScanning : bool;
  currentNetwork : string;
  wtoasts : list wtoast;
  timers : list string
}.

Definition init_state : state := mk_state [] false EmptyString [] [].

Definition setNetworks (ns : list WiFiNetwork) (st : state) : state :=
  mk_state ns (isScanning st) (currentNetwork st) (wtoasts st) (timers st).
Definition setIsScanning (b : bool) (st : state) : state :=
  mk_state (networks st) b (currentNetwork st) (wtoasts st) (timers st).
Definition setCurrentNetwork (s : string) (st : state) : state :=
  mk_state (networks st) (isScanning st) s (wtoasts st) (timers st).
Definition add_wtoast (t : wtoast) (st : state) : state :=
  mk_state (networks st) (isScanning st) (currentNetwork st) (wtoasts st ++ [t]) (timers st).
Definition set_timers (ts : list string) (st : state) : state :=
  mk_state (networks st) (isScanning st) (currentNetwork st) (wtoasts st) ts.

(** [s.startsWith(p)] *)
Definition startsWith (s p : string) : bool := String.prefix p s.

Fixpoint find {A} (p : A -> bool) (l : list A) : option A :=
  match l with
  | [] => None
  | x :: l' => if p x then Some x else find p l'
  end.

Definition simulatedNetworks : list WiFiNetwork :=
  [mk_network "TELLO-XX1234" 80 false;
   mk_network "YourHomeNetwork" 90 true;
   mk_network "TELLO-YY5678" 70 false].

(** [scanNetworks]: the body of its [try] cannot throw, so the
    [catch] is never taken. [simulatedNetworks.find(n => n.connected)?.ssid || ''] *)
Definition scanNetworks (st : state) : state :=
  let st := setIsScanning true st in
  let st := setNetworks simulatedNetworks st in
  let found := match find connected simulatedNetworks with
               | Some n => ssid n
               | None => EmptyString
               end in
  let st := setCurrentNetwork (if String.eqb found EmptyString then EmptyString else found) st in
  setIsScanning false st.

(** [connectToNetwork(ssid)] up to its [await]: the rest runs when the
    timer fires. *)
Definition connectToNetwork (s : string) (st : state) : state :=
  if negb (startsWith s TELLO_NETWORK_PREFIX) then
    add_wtoast (mk_wtoast "Invalid Network" "Please select a Tello drone network."
                  VariantDestructive) st
  else
    let st := add_wtoast (mk_wtoast "Connecting to Drone"
                            ("Attempting to connect to " ++ s ++ "...") VariantDefault) st in
    set_timers (timers st ++ [s]) st.

(** The continuation of [connectToNetwork] after the oldest timer fires. *)
Definition timer_fires (st : state) : option state :=
  match timers st with
  | [] => None
  | s :: rest =>
      let st := set_timers rest st in
      let st := setCurrentNetwork s st in
      Some (add_wtoast (mk_wtoast "Connected" ("Successfully connected to " ++ s)
                          VariantDefault) st)
  end.

(** The state after mounting: the effect with [[]] dependencies ran
    [scanNetworks()] once. *)
Definition mounted : state := scanNetworks init_state.

Inductive wifi_event :=
| Refresh
| SelectNetwork (i : nat)
| TimerFires.

(** The Refresh button is [disabled={isScanning}]; a network card calls
    [connectToNetwork(network.ssid)]. *)
Definition wstep (st : state) (e : wifi_event) : option state :=
  match e with
  | Refresh => if isScanning st then None else Some (scanNetworks st)
  | SelectNetwork i =>
      match networks st !! i with
      | Some n => Some (connectToNetwork (ssid n) st)
      | None => None
      end
  | TimerFires => timer_fires st
  end.

Fixpoint wrun (st : state) (tr : list wifi_event) : option state :=
  match tr with
  | [] => Some st
  | e :: tr' => st' ← wstep st e; wrun st' tr'
  end.

(** Where the shown network can come from: the connected network of the
    scan, or a drone network. *)
Definition drone_network (s : string) : Prop :=
  exists n, In n simulatedNetworks /\ startsWith (ssid n) TELLO_NETWORK_PREFIX = true /\
            s = ssid n.

Definition wifi_inv (st : state) : Prop :=
  isScanning st = false /\ networks st = simulatedNetworks /\
  (currentNetwork st = "YourHomeNetwork" \/ drone_network (currentNetwork st)) /\
  Forall drone_network (timers st).

End WifiSelector.

(** The events of the dashboard that come from the panel or the browser:
    the hook's [connect()] and [disconnect()] are called only by the
    panel's handlers, never directly. *)
Definition panel_event (e : Dashboard.ui_event) : Prop :=
  match e with
  | Dashboard.Browser UserConnect | Dashboard.Browser UserDisconnect => False
  | _ => True
  end.

(** A backend that refuses [POST /connect]: the request fails or its
    status is not 2xx. *)
Definition refuses_connect (fetch : DroneCommands.request -> DroneCommands.fetch_outcome) : Prop :=
  forall r, DroneCommands.req_url r = "http://localhost:8000/connect" ->
    match fetch r with
    | DroneCommands.NetworkFailure => True
    | DroneCommands.Response status _ => DroneCommands.response_ok status = false
    end.

(** ** Concrete inputs *)

Definition msg (s : string) : string := MiniJSON.jtext s.

Definition run_demo (tr : list event) : world :=
  default init_world (run MiniJSON.JSON_parse init_world tr).

(** A connected socket 0 that has received two snapshots. *)
Definition trace_snapshots : list event :=
  [UserConnect; EffectFlush; SockOpen 0;
   SockMessage 0 (msg "{'type': 'state_update', 'data': {'battery': 80, 'height': 120}}");
   SockMessage 0 (msg "{'type': 'video_frame', 'data': {'frame': 'QUJD'}}");
   SockMessage 0 (msg "{'type': 'state_update', 'data': {'battery': 79}}")].

(** Two frames, then a [video_frame] message without [data]. *)
Definition trace_frames : list event :=
  [UserConnect; EffectFlush; SockOpen 0;
   SockMessage 0 (msg "{'type': 'video_frame', 'data': {'frame': 'AAAA'}}");
   SockMessage 0 (msg "{'type': 'video_frame', 'data': {'frame': 'BBBB'}}");
   SockMessage 0 (msg "{'type': 'video_frame'}")].

Definition world_open : world := run_demo [UserConnect; EffectFlush; SockOpen 0].

(** The trace of C7's counterexample: open socket 0, open again (socket
    1 replaces it and the effect closes 0), socket 1 opens, then the close
    event of socket 0 arrives. *)
Definition trace_reopen : list event :=
  [UserConnect; EffectFlush; SockOpen 0; UserConnect; EffectFlush; SockOpen 1; SockClose 0].

Definition backend_500 : DroneCommands.request -> DroneCommands.fetch_outcome :=
  fun _ => DroneCommands.Response 500 "{}".

(** A backend that accepts every command. *)
Definition backend_ok : DroneCommands.request -> DroneCommands.fetch_outcome :=
  fun _ => DroneCommands.Response 200 (MiniJSON.jtext "{'status': 'ok'}").

(** The dashboard after a run, from its initial state, against a backend. *)
Definition ui_final (fetch : DroneCommands.request -> DroneCommands.fetch_outcome)
    (tr : list Dashboard.ui_event) : Dashboard.ui :=
  default Dashboard.init_ui (Dashboard.ui_run MiniJSON.JSON_parse fetch Dashboard.init_ui tr).

(** Connect, let the socket open, then use every control of the panel. *)
Definition ui_trace : list Dashboard.ui_event :=
  [Dashboard.Click Dashboard.ConnectionButton; Dashboard.Browser EffectFlush;
   Dashboard.Browser (SockOpen 0);
   Dashboard.Click Dashboard.TakeoffLandButton; Dashboard.Click Dashboard.ArrowUpButton;
   Dashboard.Click Dashboard.ArrowLeftButton; Dashboard.Click Dashboard.RotateCcwButton;
   Dashboard.Click Dashboard.RotateCwButton; Dashboard.Click (Dashboard.SpeedSlider 80);
   Dashboard.Click Dashboard.FlipForwardButton; Dashboard.Click Dashboard.TrackButton;
   Dashboard.Browser (SockMessage 0 (msg "{'type': 'state_update', 'data': {'battery': 64}}"));
   Dashboard.Click Dashboard.ConnectionButton; Dashboard.Browser EffectFlush].

(** The dashboard connected to an open socket 0. *)
Definition ui_open : Dashboard.ui :=
  ui_final backend_ok
    [Dashboard.Click Dashboard.ConnectionButton; Dashboard.Browser EffectFlush;
     Dashboard.Browser (SockOpen 0)].

(** The run from a world along a trace. *)
Definition run_from (w : world) (tr : list event) : world :=
  default w (run MiniJSON.JSON_parse w tr).

(** Disconnect, then connect again: socket 1 opens. *)
Definition trace_reconnect : list event :=
  [UserDisconnect; EffectFlush; UserConnect; EffectFlush; SockOpen 1].

(** Two connects in one render, then socket 0 and socket 1 open and the
    user disconnects. *)
Definition trace_leak_tail : list event := [SockOpen 0; SockOpen 1; UserDisconnect; EffectFlush].


(** Snapshots whose readings are [null], or an object. *)
Definition world_null_readings : world :=
  run_demo [UserConnect; EffectFlush; SockOpen 0;
            SockMessage 0 (msg "{'type': 'state_update', 'data': {'battery': null, 'height': null, 'temperature': 21}}")].

Definition world_object_battery : world :=
  run_demo [UserConnect; EffectFlush; SockOpen 0;
            SockMessage 0 (msg "{'type': 'state_update', 'data': {'battery': {'percent': 80}}}")].

(** An open socket that has shown one frame. *)
Definition world_frame : world :=
  run_demo [UserConnect; EffectFlush; SockOpen 0;
            SockMessage 0 (msg "{'type': 'video_frame', 'data': {'frame': 'QUJD'}}")].

(** The Wi-Fi selector after a run from its mounted state. *)
Definition wifi_final (tr : list WifiSelector.wifi_event) : WifiSelector.state :=
  default WifiSelector.mounted (WifiSelector.wrun WifiSelector.mounted tr).

Definition wifi_trace : list WifiSelector.wifi_event :=
  [WifiSelector.SelectNetwork 1; WifiSelector.SelectNetwork 0; WifiSelector.Refresh;
   WifiSelector.TimerFires; WifiSelector.SelectNetwork 2].

Ltac js_unfold :=
  unfold dispatch, onmessage, onopen, onclose, js_lift, js_modify, js_throw,
    mbind, js_bind, mret, js_ret in *.

Section ChannelProperties.

Variable JSON_parse : string -> option jsval.

Lemma strict_eq_str_true (t : jsval) (s : string) :
  strict_eq_str t s = true <-> t = JStr s.
Proof.
  destruct t; cbn; split; try discriminate; try congruence.
  - intros H. apply String.eqb_eq in H. subst. reflexivity.
  - intros H. injection H as ->. apply String.eqb_refl.
Qed.

Lemma has_tag_get (v : jsval) (tag : string) :
  get_prop v "type" = Normal (JStr tag) <-> has_tag v tag = true.
Proof.
  unfold has_tag, envelope_type; destruct v; cbn; split; try discriminate.
  - destruct (assoc_get "type" fields) as [[]|]; cbn; try discriminate.
    intros H. injection H as ->. apply String.eqb_refl.
  - destruct (assoc_get "type" fields) as [[]|]; cbn; try discriminate.
    intros H. apply String.eqb_eq in H. subst. reflexivity.
Qed.

(** How a message event changes the world, field by field. *)
Lemma onmessage_droneState (d : string) (w : world) :
  droneState (dispatch (onmessage JSON_parse d) w)
  = match JSON_parse d with
    | Some v => if has_tag v "state_update" then envelope_data v else droneState w
    | None => droneState w
    end.
Proof.
  js_unfold. destruct (JSON_parse d) as [v|]; cbn; [|reflexivity].
  destruct (get_prop v "type") as [t|e] eqn:Ht; cbn.
  - destruct (strict_eq_str t "state_update") eqn:Hs.
    + apply strict_eq_str_true in Hs. subst t.
      apply has_tag_get in Ht. rewrite Ht.
      destruct v; cbn in *; try discriminate; reflexivity.
    + assert (has_tag v "state_update" = false) as ->.
      { destruct (has_tag v "state_update") eqn:Hh; [|reflexivity].
        apply has_tag_get in Hh. rewrite Hh in Ht. injection Ht as <-.
        cbn in Hs. rewrite ?String.eqb_refl in Hs. discriminate. }
      destruct (strict_eq_str t "video_frame"); cbn; [|reflexivity].
      destruct (get_prop v "data") as [x|]; cbn; [|reflexivity].
      destruct (get_prop x "frame"); reflexivity.
  - assert (has_tag v "state_update" = false) as ->.
    { destruct (has_tag v "state_update") eqn:Hh; [|reflexivity].
      apply has_tag_get in Hh. congruence. }
    reflexivity.
Qed.

Lemma onmessage_frame (d : string) (w : world) :
  isConnected (dispatch (onmessage JSON_parse d) w) = isConnected w /\
  ws (dispatch (onmessage JSON_parse d) w) = ws w /\
  effect_ws (dispatch (onmessage JSON_parse d) w) = effect_ws w /\
  sockets (dispatch (onmessage JSON_parse d) w) = sockets w.
Proof. js_unfold. repeat case_match; simplify_eq; cbn; auto. Qed.

Lemma onmessage_videoFrame (d : string) (w : world) :
  videoFrame (dispatch (onmessage JSON_parse d) w)
  = match JSON_parse d with
    | Some v =>
        if has_tag v "video_frame" then
          match get_prop (envelope_data v) "frame" with
          | Normal f => f
          | Thrown _ => videoFrame w
          end
        else videoFrame w
    | None => videoFrame w
    end.
Proof.
  js_unfold. destruct (JSON_parse d) as [v|]; cbn; [|reflexivity].
  destruct (get_prop v "type") as [t|e] eqn:Ht; cbn.
  - destruct (strict_eq_str t "state_update") eqn:Hs.
    + apply strict_eq_str_true in Hs. subst t.
      assert (has_tag v "video_frame" = false) as ->.
      { destruct (has_tag v "video_frame") eqn:Hh; [|reflexivity].
        apply has_tag_get in Hh. congruence. }
      destruct (get_prop v "data"); reflexivity.
    + destruct (strict_eq_str t "video_frame") eqn:Hv.
      * apply strict_eq_str_true in Hv. subst t.
        apply has_tag_get in Ht as Hh. rewrite Hh.
        destruct v; cbn in *; try discriminate.
        destruct (get_prop _ "frame"); reflexivity.
      * assert (has_tag v "video_frame" = false) as ->.
        { destruct (has_tag v "video_frame") eqn:Hh; [|reflexivity].
          apply has_tag_get in Hh. rewrite Hh in Ht. injection Ht as <-.
          cbn in Hv. rewrite ?String.eqb_refl in Hv. discriminate. }
        reflexivity.
  - assert (has_tag v "video_frame" = false) as ->.
    { destruct (has_tag v "video_frame") eqn:Hh; [|reflexivity].
      apply has_tag_get in Hh. congruence. }
    reflexivity.
Qed.

Ltac step_cases :=
  unfold step, connect, disconnect, effect_flush, ws_close, dispatch, onopen,
    onclose, js_modify in *;
  repeat case_match; simplify_eq; cbn.

(** The slots each step writes. *)
Lemma step_droneState (w w' : world) (e : event) :
  step JSON_parse w e = Some w' ->
  droneState w' = match e with
                  | SockMessage _ d => droneState (dispatch (onmessage JSON_parse d) w)
                  | _ => droneState w
                  end.
Proof. destruct e; intros H; step_cases; reflexivity. Qed.

Lemma step_videoFrame (w w' : world) (e : event) :
  step JSON_parse w e = Some w' ->
  videoFrame w' = match e with
                  | SockMessage _ d => videoFrame (dispatch (onmessage JSON_parse d) w)
                  | _ => videoFrame w
                  end.
Proof. destruct e; intros H; step_cases; reflexivity. Qed.

Lemma run_droneState (tr : list event) (w0 w : world) :
  run JSON_parse w0 tr = Some w -> droneState w = latest_snapshot JSON_parse (droneState w0) tr.
Proof.
  revert w0. induction tr as [|e tr IH]; intros w0 H; cbn in H.
  - injection H as <-. reflexivity.
  - destruct (step JSON_parse w0 e) as [w1|] eqn:Hs; cbn in H; [|discriminate].
    apply IH in H. rewrite H. apply step_droneState in Hs. rewrite Hs.
    destruct e; cbn; try reflexivity.
    rewrite onmessage_droneState.
    destruct (JSON_parse data) as [v|]; [|reflexivity].
    destruct (has_tag v "state_update"); reflexivity.
Qed.

(** Claim C1: after any feasible sequence of events (opens, closes,
    messages, hook calls) from the initial world, the telemetry snapshot
    [droneState] is the [data] payload of the last [state_update]
    message of the sequence, whole; [null] when there was none. *)
Theorem C1_snapshot_is_latest_state_update (tr : list event) (w : world) :
  run JSON_parse init_world tr = Some w -> droneState w = latest_snapshot JSON_parse JNull tr.
Proof. apply run_droneState. Qed.

(** Claim C3: a message that is valid JSON whose [type] is neither
    [state_update] nor [video_frame] leaves the world unchanged: the
    handler returns normally without writing any slot. *)
Theorem C3_unrecognized_tag_ignored (sid : nat) (d : string) (v t : jsval) (w : world) :
  sockets w !! sid = Some OPEN ->
  JSON_parse d = Some v ->
  get_prop v "type" = Normal t ->
  t <> JStr "state_update" -> t <> JStr "video_frame" ->
  onmessage JSON_parse d w = (w, Normal tt) /\
  step JSON_parse w (SockMessage sid d) = Some w.
Proof.
  intros Hsock Hp Ht H1 H2.
  assert (Hon : onmessage JSON_parse d w = (w, Normal tt)).
  { js_unfold. rewrite Hp. cbn -[get_prop strict_eq_str]. rewrite Ht.
    destruct (strict_eq_str t "state_update") eqn:Hs.
    { apply strict_eq_str_true in Hs. contradiction. }
    try rewrite Ht.
    destruct (strict_eq_str t "video_frame") eqn:Hv.
    { apply strict_eq_str_true in Hv. contradiction. }
    reflexivity. }
  split; [exact Hon|].
  cbn. rewrite Hsock. unfold dispatch. rewrite Hon. reflexivity.
Qed.

(** Claim C4: a malformed message (not JSON, or without [type]) delivered
    to an open socket is handled without crashing the channel: the step
    succeeds, the socket stays open, and the world is unchanged except
    that the event loop may report the exception the handler threw. *)
Theorem C4_malformed_message_recoverable (sid : nat) (d : string) (w : world) :
  sockets w !! sid = Some OPEN ->
  (JSON_parse d = None \/ exists v, JSON_parse d = Some v /\ missing_type v) ->
  exists w', step JSON_parse w (SockMessage sid d) = Some w' /\
    (w' = w \/ exists e, w' = report_uncaught e w) /\
    sockets w' !! sid = Some OPEN.
Proof.
  intros Hsock Hm. cbn. rewrite Hsock.
  eexists; split; [reflexivity|].
  assert (Hw : dispatch (onmessage JSON_parse d) w = w \/
               exists e, dispatch (onmessage JSON_parse d) w = report_uncaught e w).
  { js_unfold. destruct Hm as [Hn | (v & Hv & Hmt)].
    - rewrite Hn. right. eexists. reflexivity.
    - rewrite Hv. cbn. destruct v; cbn in *; try (left; reflexivity).
      + right. eexists. reflexivity.
      + right. eexists. reflexivity.
      + rewrite Hmt. left. reflexivity. }
  split; [exact Hw|].
  destruct Hw as [-> | [e ->]]; exact Hsock.
Qed.

(** Claim C8: [isConnected] is a boolean that a step sets to [true]
    exactly on a socket open event, to [false] exactly on a socket close
    event, and leaves alone on every other step (messages, [connect],
    [disconnect] before the close event, effect flushes). *)
Theorem C8_isConnected_open_close_only (w w' : world) (e : event) :
  step JSON_parse w e = Some w' ->
  isConnected w' = match e with
                   | SockOpen _ => true
                   | SockClose _ => false
                   | _ => isConnected w
                   end.
Proof.
  destruct e as [| | |sid|sid d|sid]; intros H.
  5: { cbn in H. destruct (sockets w !! sid) as [[]|]; try discriminate.
       injection H as <-. apply onmessage_frame. }
  all: step_cases; reflexivity.
Qed.


(** Claim C10: a [state_update] message writes only [droneState] and a
    [video_frame] message only [videoFrame]; neither touches
    [isConnected]. *)
Theorem C10_tags_write_disjoint_slots (sid : nat) (d : string) (w w' : world) :
  step JSON_parse w (SockMessage sid d) = Some w' ->
  isConnected w' = isConnected w /\
  (forall v, JSON_parse d = Some v -> has_tag v "state_update" = true ->
     videoFrame w' = videoFrame w) /\
  (forall v, JSON_parse d = Some v -> has_tag v "video_frame" = true ->
     droneState w' = droneState w).
Proof.
  intros H. cbn in H. destruct (sockets w !! sid) as [[]|]; try discriminate.
  injection H as <-. split; [apply onmessage_frame|]. split.
  - intros v Hv Ht. rewrite onmessage_videoFrame, Hv.
    destruct (has_tag v "video_frame") eqn:Hf; [|reflexivity].
    unfold has_tag in Ht, Hf. destruct (envelope_type v); [|discriminate].
    apply String.eqb_eq in Ht, Hf. congruence.
  - intros v Hv Ht. rewrite onmessage_droneState, Hv.
    destruct (has_tag v "state_update") eqn:Hf; [|reflexivity].
    unfold has_tag in Ht, Hf. destruct (envelope_type v); [|discriminate].
    apply String.eqb_eq in Ht, Hf. congruence.
Qed.

Lemma get_frame_field (x : jsval) :
  get_prop x "frame" = match frame_field x with
                       | Some f => Normal f
                       | None => Thrown TypeError
                       end.
Proof. destruct x; reflexivity. Qed.

Lemma run_videoFrame (tr : list event) (w0 w : world) :
  run JSON_parse w0 tr = Some w -> videoFrame w = latest_frame JSON_parse (videoFrame w0) tr.
Proof.
  revert w0. induction tr as [|e tr IH]; intros w0 H; cbn in H.
  - injection H as <-. reflexivity.
  - destruct (step JSON_parse w0 e) as [w1|] eqn:Hs; cbn in H; [|discriminate].
    apply IH in H. rewrite H. apply step_videoFrame in Hs. rewrite Hs.
    destruct e; cbn; try reflexivity.
    rewrite onmessage_videoFrame.
    destruct (JSON_parse data) as [v|]; [|reflexivity].
    destruct (has_tag v "video_frame"); [|reflexivity].
    rewrite get_frame_field. destruct (frame_field (envelope_data v)); reflexivity.
Qed.

(** Claim C2, as amended: after any feasible sequence of events from the
    initial world, [videoFrame] is the [data.frame] of the last
    [video_frame] message whose [data] is present and not null; a
    [video_frame] message without such [data] throws in the handler and
    is dropped; [null] when there was no such message. *)
Theorem C2_frame_is_latest_video_frame (tr : list event) (w : world) :
  run JSON_parse init_world tr = Some w -> videoFrame w = latest_frame JSON_parse JNull tr.
Proof. apply run_videoFrame. Qed.

Lemma lookup_app_last (l : list ready_state) (x : ready_state) :
  (l ++ [x])%list !! length l = Some x.
Proof. rewrite lookup_app_r by lia. rewrite Nat.sub_diag. reflexivity. Qed.

(** Claim C7, as amended: calling [connect()] while socket [old] is held
    and open, and letting React run the [ws] effect, leaves the hook
    holding only the new socket and closes [old] (no message of [old] is
    delivered any more).  The handlers of [old] stay installed, though:
    its close event, arriving after the new socket has opened, sets
    [isConnected] to [false] while the new socket is open. *)
Theorem C7_reopen_replaces_handle (w : world) (old : nat) :
  ws w = Some old -> effect_ws w = Some old -> sockets w !! old = Some OPEN ->
  exists w1, run JSON_parse w [UserConnect; EffectFlush] = Some w1 /\
    ws w1 = Some (length (sockets w)) /\ old <> length (sockets w) /\
    sockets w1 !! old = Some CLOSING /\
    sockets w1 !! length (sockets w) = Some CONNECTING /\
    (forall d, step JSON_parse w1 (SockMessage old d) = None) /\
    exists w3, run JSON_parse w1 [SockOpen (length (sockets w)); SockClose old] = Some w3 /\
      ws w3 = Some (length (sockets w)) /\
      sockets w3 !! length (sockets w) = Some OPEN /\
      isConnected w3 = false.
Proof.
  intros Hws Heff Hold.
  set (n := length (sockets w)).
  assert (Hlt : old < n) by (apply lookup_lt_is_Some; eauto).
  assert (Hne : old <> n) by lia.
  assert (Hold' : (sockets w ++ [CONNECTING])%list !! old = Some OPEN)
    by (rewrite lookup_app_l by lia; exact Hold).
  assert (Hnew : (sockets w ++ [CONNECTING])%list !! n = Some CONNECTING)
    by apply lookup_app_last.
  assert (Hlen : old < length (sockets w ++ [CONNECTING])%list)
    by (rewrite length_app; cbn; lia).
  eexists; split.
  { cbn. reflexivity. }
  unfold effect_flush, connect, ws_close. cbn. rewrite Heff.
  cbn. fold n. rewrite Hold'. cbn.
  case_decide as Heq; [congruence|]. cbn.
  split; [reflexivity|]. split; [exact Hne|].
  split; [apply list_lookup_insert_eq; exact Hlen|].
  split; [rewrite list_lookup_insert_ne by lia; exact Hnew|].
  split.
  { intros d. cbn. rewrite list_lookup_insert_eq by exact Hlen. reflexivity. }
  cbn. rewrite list_lookup_insert_ne by lia. rewrite Hnew. cbn.
  rewrite list_lookup_insert_ne by lia.
  rewrite list_lookup_insert_eq by exact Hlen. cbn.
  eexists; split; [reflexivity|]. cbn.
  split; [reflexivity|]. split; [|reflexivity].
  rewrite list_lookup_insert_ne by lia.
  apply list_lookup_insert_eq. rewrite length_insert. rewrite length_app. cbn. lia.
Qed.

End ChannelProperties.

(** ** Properties of the command dispatcher *)

Section CommandProperties.

Import DroneCommands.

Variable JSON_parse : string -> option jsval.

(** Claim C5, as amended: every operation issues exactly one POST, once
    (no retry), and settles from that response alone: a non-2xx status
    rejects with [Error('Command failed')]; a 2xx status resolves with
    the parsed body when the body is JSON and otherwise rejects with the
    [SyntaxError] of [response.json()]; a network failure rejects with
    [fetch]'s [TypeError]. *)
Theorem C5_command_outcome (fetch : request -> fetch_outcome) (op : operation) :
  exists req, fst (useDroneCommands JSON_parse fetch op) = [req] /\
    req_method req = "POST" /\
    (forall status body, fetch req = Response status body ->
       ~ (200 <= status <= 299)%Z ->
       snd (useDroneCommands JSON_parse fetch op) = Thrown (Error "Command failed")) /\
    (forall status body v, fetch req = Response status body ->
       (200 <= status <= 299)%Z -> JSON_parse body = Some v ->
       snd (useDroneCommands JSON_parse fetch op) = Normal v) /\
    (forall status body, fetch req = Response status body ->
       (200 <= status <= 299)%Z -> JSON_parse body = None ->
       snd (useDroneCommands JSON_parse fetch op) = Thrown SyntaxError) /\
    (fetch req = NetworkFailure ->
       snd (useDroneCommands JSON_parse fetch op) = Thrown TypeError).
Proof.
  assert (Hf : forall endpoint body,
    exists req, fst (fetchWithBody JSON_parse fetch endpoint body) = [req] /\
    req_method req = "POST" /\
    (forall status b, fetch req = Response status b -> ~ (200 <= status <= 299)%Z ->
       snd (fetchWithBody JSON_parse fetch endpoint body) = Thrown (Error "Command failed")) /\
    (forall status b v, fetch req = Response status b -> (200 <= status <= 299)%Z ->
       JSON_parse b = Some v -> snd (fetchWithBody JSON_parse fetch endpoint body) = Normal v) /\
    (forall status b, fetch req = Response status b -> (200 <= status <= 299)%Z ->
       JSON_parse b = None -> snd (fetchWithBody JSON_parse fetch endpoint body) = Thrown SyntaxError) /\
    (fetch req = NetworkFailure ->
       snd (fetchWithBody JSON_parse fetch endpoint body) = Thrown TypeError)).
  { intros endpoint body. eexists. split; [reflexivity|]. split; [reflexivity|].
    unfold fetchWithBody, response_ok; cbn.
    repeat split.
    - intros status b -> Hr.
      destruct (200 <=? status)%Z eqn:H1; destruct (status <=? 299)%Z eqn:H2;
        cbn; try reflexivity.
      apply Z.leb_le in H1, H2. lia.
    - intros status b v -> Hr Hv.
      replace ((200 <=? status)%Z && (status <=? 299)%Z) with true
        by (symmetry; apply andb_true_intro; split; apply Z.leb_le; lia).
      cbn. rewrite Hv. reflexivity.
    - intros status b -> Hr Hv.
      replace ((200 <=? status)%Z && (status <=? 299)%Z) with true
        by (symmetry; apply andb_true_intro; split; apply Z.leb_le; lia).
      cbn. rewrite Hv. reflexivity.
    - intros ->. reflexivity. }
  destruct op; apply Hf.
Qed.

(** Claim C6: [move(direction, distance)] (reached from the control
    panel through [handleMove] and the [move] mutation) issues exactly one
    request, a POST to [/move] with the JSON body
    [{direction, distance}], whatever the backend answers: no retry.
    In particular [move("forward", 30)] posts
    [{direction: "forward", distance: 30}]. *)
Theorem C6_move_single_post (fetch : request -> fetch_outcome)
    (direction : string) (distance : Z) :
  fst (useDroneCommands JSON_parse fetch (OpMove direction distance))
  = [mk_request "POST" "http://localhost:8000/move"
       [("Content-Type", "application/json")]
       (JObj [("direction", JStr direction); ("distance", JNum distance)])] /\
  fst (useDroneCommands JSON_parse fetch (OpMove "forward" 30))
  = [mk_request "POST" "http://localhost:8000/move"
       [("Content-Type", "application/json")]
       (JObj [("direction", JStr "forward"); ("distance", JNum 30)])].
Proof. split; reflexivity. Qed.

End CommandProperties.

(** ** Properties of the dashboard *)

Section DashboardProperties.

Import Dashboard.
Local Open Scope list_scope.

Variable JSON_parse : string -> option jsval.
Variable fetch : DroneCommands.request -> DroneCommands.fetch_outcome.


Ltac handler_unfold :=
  unfold click, handleConnect, handleDisconnect, handleMove, handleRotate,
    handleSpeedChange, handleToggleTracking, fire, issue in *.

Ltac sent_case :=
  cbn; repeat case_match; cbn;
  first [ exists []; rewrite app_nil_r; split; [reflexivity | constructor]
        | eexists; split; [reflexivity | repeat constructor; cbn; discriminate] ].

Lemma click_sent (c : control) (u : ui) :
  exists new, sent (click JSON_parse fetch c u) = sent u ++ new /\
    Forall (fun r => DroneCommands.req_url r <> takeoff_url) new.
Proof.
  handler_unfold. destruct (isConnected (hook u)) eqn:Hc; destruct c; sent_case.
Qed.

Lemma ui_step_sent (u u' : ui) (e : ui_event) :
  ui_step JSON_parse fetch u e = Some u' ->
  exists new, sent u' = sent u ++ new /\
    Forall (fun r => DroneCommands.req_url r <> takeoff_url) new.
Proof.
  destruct e as [c|be]; cbn; intros H.
  - injection H as <-. apply click_sent.
  - destruct (step JSON_parse (hook u) be); cbn in H; [|discriminate].
    injection H as <-. exists []. rewrite app_nil_r. split; [reflexivity|constructor].
Qed.

(** The Take Off / Land button is disabled while disconnected and, when
    enabled, runs [isConnected ? onLand : onTakeoff], i.e. [onLand]: no
    sequence of clicks and browser events ever sends [/takeoff]. *)
Theorem dashboard_never_sends_takeoff (tr : list ui_event) (u : ui) :
  ui_run JSON_parse fetch init_ui tr = Some u ->
  Forall (fun r => DroneCommands.req_url r <> takeoff_url) (sent u).
Proof.
  assert (Hgen : forall u0, Forall (fun r => DroneCommands.req_url r <> takeoff_url) (sent u0) ->
            ui_run JSON_parse fetch u0 tr = Some u ->
            Forall (fun r => DroneCommands.req_url r <> takeoff_url) (sent u)).
  { induction tr as [|e tr IH]; intros u0 H0 Hrun; cbn in Hrun.
    - injection Hrun as <-. exact H0.
    - destruct (ui_step JSON_parse fetch u0 e) as [u1|] eqn:Hs; cbn in Hrun; [|discriminate].
      apply (IH u1); [|exact Hrun].
      destruct (ui_step_sent _ _ _ Hs) as (new & -> & Hn).
      apply Forall_app. split; assumption. }
  apply Hgen. constructor.
Qed.

(** The tracking button flips [isTracking] and posts the new value before
    the request settles; the flag is not rolled back when the request
    fails. *)
Theorem dashboard_tracking_flips_without_rollback (u : ui) :
  isConnected (hook u) = true ->
  isTracking (click JSON_parse fetch TrackButton u) = negb (isTracking u) /\
  sent (click JSON_parse fetch TrackButton u)
    = sent u ++ [DroneCommands.mk_request "POST" "http://localhost:8000/track_object"
                   [("Content-Type", "application/json")]
                   (JObj [("enabled", JBool (negb (isTracking u)))])].
Proof.
  intros Hc. unfold click. rewrite Hc. cbn.
  unfold handleToggleTracking, fire, issue. cbn. case_match; split; reflexivity.
Qed.

(** Moving the speed slider to [v] shows [v] and posts [{speed: v}];
    the shown speed stays [v] whatever the backend answers. *)
Theorem dashboard_speed_slider_without_rollback (u : ui) (v : Z) :
  isConnected (hook u) = true ->
  speed (click JSON_parse fetch (SpeedSlider v) u) = v /\
  sent (click JSON_parse fetch (SpeedSlider v) u)
    = sent u ++ [DroneCommands.mk_request "POST" "http://localhost:8000/speed"
                   [("Content-Type", "application/json")]
                   (JObj [("speed", JNum v)])].
Proof.
  intros Hc. unfold click. rewrite Hc. cbn.
  unfold handleSpeedChange, fire, issue. cbn. case_match; split; reflexivity.
Qed.

(** When the backend refuses every command, a refused move or rotation
    becomes a toast (its handler catches), while a refused land, flip,
    speed or tracking command is an unhandled rejection with no toast. *)
Theorem dashboard_failure_reporting (c : control) (u : ui) (status : Z) (body : string) :
  isConnected (hook u) = true ->
  (forall r, fetch r = DroneCommands.Response status body) ->
  ~ (200 <= status <= 299)%Z ->
  (In c [ArrowUpButton; ArrowLeftButton; ArrowDownButton; ArrowRightButton;
         RotateCcwButton; RotateCwButton] ->
     rejections (click JSON_parse fetch c u) = rejections u /\
     exists title, toasts (click JSON_parse fetch c u)
       = toasts u ++ [mk_toast title (DescError (Error "Command failed")) true]) /\
  ((c = TakeoffLandButton \/ c = FlipForwardButton \/ c = TrackButton \/
    exists v, c = SpeedSlider v) ->
     toasts (click JSON_parse fetch c u) = toasts u /\
     rejections (click JSON_parse fetch c u) = rejections u ++ [Error "Command failed"]).
Proof.
  intros Hc Hf Hst.
  assert (Hok : DroneCommands.response_ok status = false).
  { unfold DroneCommands.response_ok.
    destruct (200 <=? status)%Z eqn:H1; destruct (status <=? 299)%Z eqn:H2; cbn; try reflexivity.
    apply Z.leb_le in H1, H2. lia. }
  split.
  - intros Hin. unfold click. rewrite Hc.
    destruct Hin as [<-|[<-|[<-|[<-|[<-|[<-|[]]]]]]];
      cbn; unfold handleMove, handleRotate, issue; cbn; rewrite Hf; cbn; rewrite Hok; cbn;
      (split; [reflexivity | eexists; reflexivity]).
  - intros Hd. unfold click. rewrite Hc.
    destruct Hd as [-> | [-> | [-> | [v ->]]]]; cbn;
      unfold handleSpeedChange, handleToggleTracking, fire, issue; cbn;
      rewrite Hf; cbn; rewrite Hok; cbn; split; reflexivity.
Qed.


Lemma click_sent_motion (c : control) (u : ui) :
  exists new, sent (click JSON_parse fetch c u) = sent u ++ new /\
    Forall panel_motion_request new.
Proof.
  handler_unfold. unfold panel_motion_request.
  destruct (isConnected (hook u)) eqn:Hc; destruct c; cbn; repeat case_match; cbn.
  all: first [ exists []; rewrite app_nil_r; split; [reflexivity | constructor]
             | eexists; split; [reflexivity|] ].
  all: repeat constructor.
  all: cbn; intros Hu; try discriminate.
  all: eexists; split; [|reflexivity]; cbn; tauto.
Qed.

(** The arrow buttons post only [forward], [left], [down] and [right]
    moves of 30 (no [back] and no [up]), and the rotation buttons only
    quarter turns: this holds of every request sent along any sequence
    of clicks and browser events. *)
Theorem dashboard_motion_vocabulary (tr : list ui_event) (u : ui) :
  ui_run JSON_parse fetch init_ui tr = Some u -> Forall panel_motion_request (sent u).
Proof.
  assert (Hgen : forall u0, Forall panel_motion_request (sent u0) ->
            ui_run JSON_parse fetch u0 tr = Some u -> Forall panel_motion_request (sent u)).
  { induction tr as [|e tr IH]; intros u0 H0 Hrun; cbn in Hrun.
    - injection Hrun as <-. exact H0.
    - destruct (ui_step JSON_parse fetch u0 e) as [u1|] eqn:Hs; cbn in Hrun; [|discriminate].
      apply (IH u1); [|exact Hrun].
      destruct e as [c|be]; cbn in Hs.
      + injection Hs as <-. destruct (click_sent_motion c u0) as (new & -> & Hn).
        apply Forall_app. split; assumption.
      + destruct (step JSON_parse (hook u0) be); cbn in Hs; [|discriminate].
        injection Hs as <-. exact H0. }
  apply Hgen. constructor.
Qed.

Lemma connect_refused_thrown :
  refuses_connect fetch -> exists e, snd (DroneCommands.connect JSON_parse fetch) = Thrown e.
Proof.
  intros Hf. unfold DroneCommands.connect, DroneCommands.fetchWithBody.
  match goal with |- context [fetch ?r] => specialize (Hf r eq_refl); destruct (fetch r) end.
  - eexists. reflexivity.
  - cbn. rewrite Hf. cbn. eexists. reflexivity.
Qed.

Lemma click_keeps_hook (c : control) (u : ui) :
  refuses_connect fetch -> isConnected (hook u) = false ->
  hook (click JSON_parse fetch c u) = hook u.
Proof.
  intros Hf Hc. destruct (connect_refused_thrown Hf) as [e He].
  unfold click. rewrite Hc. destruct c; cbn -[handleConnect]; try reflexivity.
  unfold handleConnect, issue.
  destruct (DroneCommands.connect JSON_parse fetch) as [reqs r]. cbn in He. subst r.
  reflexivity.
Qed.

(** Against a backend that refuses [/connect], no sequence of clicks and
    browser events ever opens a WebSocket: [handleConnect] awaits the
    REST call before [wsConnect()], and every other control is disabled
    while disconnected. *)
Theorem dashboard_no_socket_without_rest (tr : list ui_event) (u : ui) :
  refuses_connect fetch -> Forall panel_event tr ->
  ui_run JSON_parse fetch init_ui tr = Some u ->
  sockets (hook u) = [] /\ ws (hook u) = None.
Proof.
  intros Hf.
  assert (Hgen : forall u0, hook u0 = init_world -> Forall panel_event tr ->
            ui_run JSON_parse fetch u0 tr = Some u -> hook u = init_world).
  { induction tr as [|e tr IH]; intros u0 H0 Hp Hrun; cbn in Hrun.
    - injection Hrun as <-. exact H0.
    - inversion Hp as [|e' tr' He Hp']; subst.
      destruct (ui_step JSON_parse fetch u0 e) as [u1|] eqn:Hs; cbn in Hrun; [|discriminate].
      apply (IH u1); [|exact Hp' | exact Hrun].
      destruct e as [c|be]; cbn in Hs.
      + injection Hs as <-. rewrite click_keeps_hook; [exact H0 | exact Hf | rewrite H0; reflexivity].
      + rewrite H0 in Hs.
        destruct be as [| | |i|i d|i]; cbn in He; try contradiction; cbn in Hs;
          try (rewrite lookup_nil in Hs); try discriminate.
        injection Hs as <-. reflexivity. }
  intros Hp Hrun. rewrite (Hgen init_ui eq_refl Hp Hrun). split; reflexivity.
Qed.

End DashboardProperties.

(** ** Properties of the socket lifecycle *)

Section Lifecycle.

Variable JSON_parse : string -> option jsval.
Local Open Scope list_scope.

Lemma ws_close_state_not_live (rs : ready_state) : ~ live (Some (ws_close_state rs)).
Proof. unfold live. destruct rs; cbn; intros [H|H]; discriminate. Qed.

Lemma ws_close_lookup (sid i : nat) (w : world) :
  sockets (ws_close sid w) !! i =
  if decide (i = sid) then ws_close_state <$> sockets w !! i else sockets w !! i.
Proof.
  unfold ws_close. destruct (sockets w !! sid) as [rs|] eqn:Hs; cbn.
  - case_decide as Hi.
    + subst i. rewrite Hs. cbn. apply list_lookup_insert_eq.
      apply lookup_lt_is_Some. eauto.
    + apply list_lookup_insert_ne. congruence.
  - case_decide as Hi; [subst i; rewrite Hs|]; reflexivity.
Qed.

Lemma ws_close_live (sid i : nat) (w : world) :
  live (sockets (ws_close sid w) !! i) -> i <> sid /\ live (sockets w !! i).
Proof.
  rewrite ws_close_lookup. case_decide as Hi.
  - subst i. destruct (sockets w !! sid); cbn; [|intros [H|H]; discriminate].
    intros H. exfalso. exact (ws_close_state_not_live _ H).
  - intros H. split; assumption.
Qed.

Lemma ws_close_other (sid i : nat) (w : world) :
  i <> sid -> sockets (ws_close sid w) !! i = sockets w !! i.
Proof. intros Hi. rewrite ws_close_lookup. case_decide; [contradiction|reflexivity]. Qed.

Lemma ws_close_length (sid : nat) (w : world) :
  length (sockets (ws_close sid w)) = length (sockets w).
Proof. unfold ws_close. case_match; cbn; [apply length_insert|reflexivity]. Qed.

Lemma ws_close_ws (sid : nat) (w : world) :
  ws (ws_close sid w) = ws w /\ effect_ws (ws_close sid w) = effect_ws w.
Proof. unfold ws_close. case_match; split; reflexivity. Qed.

Lemma live_app_connecting (l : list ready_state) (i : nat) :
  live ((l ++ [CONNECTING]) !! i) -> (i < length l /\ live (l !! i)) \/ i = length l.
Proof.
  intros H. destruct (decide (i < length l)) as [Hlt|Hge].
  - left. rewrite lookup_app_l in H by exact Hlt. split; assumption.
  - rewrite lookup_app_r in H by lia.
    destruct (i - length l) as [|k] eqn:Hk; [right; lia|].
    cbn in H. destruct H as [H|H]; discriminate.
Qed.

Lemma connect_fields (w : world) :
  ws (connect w) = Some (length (sockets w)) /\ effect_ws (connect w) = effect_ws w /\
  sockets (connect w) = sockets w ++ [CONNECTING].
Proof. repeat split. Qed.

(** What a step does to the handle, the effect and the sockets. *)
Lemma step_sockets (w w' : world) (e : event) :
  step JSON_parse w e = Some w' ->
  match e with
  | UserConnect => w' = connect w
  | UserDisconnect => w' = disconnect w
  | EffectFlush => w' = effect_flush w
  | SockOpen i =>
      sockets w !! i = Some CONNECTING /\ ws w' = ws w /\ effect_ws w' = effect_ws w /\
      sockets w' = <[i := OPEN]> (sockets w)
  | SockMessage _ _ => ws w' = ws w /\ effect_ws w' = effect_ws w /\ sockets w' = sockets w
  | SockClose i =>
      ws w' = ws w /\ effect_ws w' = effect_ws w /\ sockets w' = <[i := CLOSED]> (sockets w)
  end.
Proof.
  destruct e as [| | |i|i d|i]; cbn; intros H.
  - injection H as <-. reflexivity.
  - injection H as <-. reflexivity.
  - injection H as <-. reflexivity.
  - destruct (sockets w !! i) as [[]|] eqn:Hs; try discriminate.
    injection H as <-. repeat split; reflexivity.
  - destruct (sockets w !! i) as [[]|]; try discriminate.
    injection H as <-. destruct (onmessage_frame JSON_parse d w) as (_ & H1 & H2 & H3).
    repeat split; assumption.
  - destruct (sockets w !! i) as [[]|]; try discriminate;
      injection H as <-; repeat split; reflexivity.
Qed.


Lemma single_live_connect_flush (w : world) :
  single_live w -> single_live (effect_flush (connect w)).
Proof.
  intros (Heff & Hbound & Hlive).
  unfold effect_flush, connect. cbn -[ws_close]. rewrite Heff.
  case_decide as Hd.
  { exfalso. apply Hbound in Hd. lia. }
  destruct (ws w) as [o|] eqn:Hws.
  - pose proof (ws_close_ws o (set_ws (Some (length (sockets w)))
                  (set_sockets (sockets w ++ [CONNECTING]) w))) as [Hw1 _].
    repeat split; cbn -[ws_close].
    + symmetry. exact Hw1.
    + rewrite Hw1. cbn. intros o' Ho'. injection Ho' as <-.
      rewrite ws_close_length. cbn. rewrite length_app. cbn. lia.
    + rewrite Hw1. cbn. intros i Hi. apply ws_close_live in Hi as [Hio Hi].
      cbn in Hi. apply live_app_connecting in Hi as [[_ Hi]| ->]; [|reflexivity].
      apply Hlive in Hi. congruence.
  - repeat split; cbn.
    + intros o' Ho'. injection Ho' as <-. rewrite length_app. cbn. lia.
    + intros i Hi. apply live_app_connecting in Hi as [[_ Hi]| ->]; [|reflexivity].
      apply Hlive in Hi. discriminate.
Qed.

Lemma single_live_disconnect_flush (w : world) :
  single_live w -> single_live (effect_flush (disconnect w)).
Proof.
  intros (Heff & Hbound & Hlive).
  unfold disconnect. rewrite Heff. destruct (ws w) as [o|] eqn:Hws.
  - unfold effect_flush. cbn -[ws_close].
    pose proof (ws_close_ws o w) as [_ He]. rewrite He, Heff.
    case_decide as Hd; [discriminate|].
    pose proof (ws_close_ws o (set_ws None (ws_close o w))) as [Hw1 _].
    repeat split; cbn -[ws_close].
    + rewrite Hw1. reflexivity.
    + rewrite Hw1. cbn. discriminate.
    + rewrite Hw1. cbn. intros i Hi. apply ws_close_live in Hi as [Hio Hi].
      cbn in Hi. apply ws_close_live in Hi as [_ Hi]. apply Hlive in Hi. congruence.
  - unfold effect_flush. rewrite Heff, Hws. rewrite decide_True by reflexivity.
    repeat split; [congruence | intros o Ho; congruence | intros i Hi; apply Hlive in Hi; congruence].
Qed.

Lemma single_live_step (w w' : world) (e : event) :
  e <> UserConnect -> e <> UserDisconnect ->
  single_live w -> step JSON_parse w e = Some w' -> single_live w'.
Proof.
  intros Hc Hd Hinv Hs. pose proof (step_sockets _ _ _ Hs) as Hf.
  destruct Hinv as (Heff & Hbound & Hlive).
  destruct e as [| | |i|i d|i]; try contradiction.
  - subst w'. unfold effect_flush. rewrite decide_True by exact Heff.
    repeat split; assumption.
  - destruct Hf as (Hi & H1 & H2 & H3). repeat split.
    + congruence.
    + rewrite H1, H3, length_insert. exact Hbound.
    + intros j Hj. rewrite H1. rewrite H3 in Hj.
      destruct (decide (j = i)) as [->|Hne].
      * apply Hlive. left. exact Hi.
      * rewrite list_lookup_insert_ne in Hj by congruence. apply Hlive, Hj.
  - destruct Hf as (H1 & H2 & H3). repeat split.
    + congruence.
    + rewrite H1, H3. exact Hbound.
    + intros j Hj. rewrite H1. rewrite H3 in Hj. apply Hlive, Hj.
  - destruct Hf as (H1 & H2 & H3). repeat split.
    + congruence.
    + rewrite H1, H3, length_insert. exact Hbound.
    + intros j Hj. rewrite H1. rewrite H3 in Hj.
      destruct (decide (j = i)) as [->|Hne].
      * destruct (decide (i < length (sockets w))) as [Hlt|Hge].
        -- rewrite list_lookup_insert_eq in Hj by exact Hlt.
           destruct Hj as [Hj|Hj]; discriminate.
        -- rewrite list_insert_ge in Hj by lia.
           rewrite lookup_ge_None_2 in Hj by lia. destruct Hj as [Hj|Hj]; discriminate.
      * rewrite list_lookup_insert_ne in Hj by congruence. apply Hlive, Hj.
Qed.

(** When React commits after each call of [connect()] and [disconnect()],
    the [ws] effect's cleanup closes every replaced socket: at every point
    the only socket that can still open or deliver messages is the one
    the hook holds. *)
Theorem hook_single_live_socket (tr : list event) (w : world) :
  committed tr -> run JSON_parse init_world tr = Some w ->
  forall i, live (sockets w !! i) -> ws w = Some i.
Proof.
  intros Hc Hrun.
  assert (Hgen : forall w0, single_live w0 -> run JSON_parse w0 tr = Some w -> single_live w).
  { clear Hrun. induction Hc as [|tr Hc IH|tr Hc IH|e tr He1 He2 Hc IH]; intros w0 H0 Hr; cbn in Hr.
    - injection Hr as <-. exact H0.
    - apply (IH (effect_flush (connect w0))); [apply single_live_connect_flush, H0 | exact Hr].
    - apply (IH (effect_flush (disconnect w0))); [apply single_live_disconnect_flush, H0 | exact Hr].
    - destruct (step JSON_parse w0 e) as [w1|] eqn:Hs; cbn in Hr; [|discriminate].
      apply (IH w1); [|exact Hr]. exact (single_live_step _ _ _ He1 He2 H0 Hs). }
  assert (Hinit : single_live init_world).
  { repeat split; cbn; try discriminate. intros i Hi. rewrite lookup_nil in Hi.
    destruct Hi as [Hi|Hi]; discriminate. }
  destruct (Hgen _ Hinit Hrun) as (_ & _ & Hlive). exact Hlive.
Qed.


Lemma orphaned_step (n : nat) (w w' : world) (e : event) :
  e <> SockClose n -> orphaned n w -> step JSON_parse w e = Some w' -> orphaned n w'.
Proof.
  intros He (Hws & Heff & Hlv & Hgt & Hlen) Hs. pose proof (step_sockets _ _ _ Hs) as Hf.
  unfold orphaned, live in *.
  destruct e as [| | |i|i d|i].
  - subst w'. destruct (connect_fields w) as (C1 & C2 & C3).
    repeat split; rewrite ?C1, ?C2, ?C3.
    + intros H. injection H as H. lia.
    + exact Heff.
    + rewrite lookup_app_l by lia. exact Hlv.
    + intros o Ho. injection Ho as <-. exact Hlen.
    + rewrite length_app. lia.
  - subst w'. unfold disconnect. destruct (effect_ws w) as [o|] eqn:Ho.
    + pose proof (ws_close_ws o w) as [_ H2]. unfold set_ws, set_effect_ws; cbn -[ws_close]. repeat split.
      * discriminate.
      * rewrite H2, Ho. exact Heff.
      * rewrite ws_close_other by congruence. exact Hlv.
      * discriminate.
      * rewrite ws_close_length. exact Hlen.
    + repeat split; rewrite ?Ho; assumption.
  - subst w'. unfold effect_flush. case_decide as Hd.
    + repeat split; assumption.
    + destruct (effect_ws w) as [o|] eqn:Ho.
      * pose proof (ws_close_ws o w) as [H1 _]. unfold set_ws, set_effect_ws; cbn -[ws_close]. repeat split.
        -- rewrite ?H1. exact Hws.
        -- rewrite ?H1. exact Hws.
        -- rewrite ws_close_other by congruence. exact Hlv.
        -- rewrite ?H1. exact Hgt.
        -- rewrite ws_close_length. exact Hlen.
      * cbn. repeat split; assumption.
  - destruct Hf as (Hi & H1 & H2 & H3). repeat split.
    + congruence.
    + congruence.
    + rewrite H3. destruct (decide (i = n)) as [->|Hne].
      * rewrite list_lookup_insert_eq by exact Hlen. right. reflexivity.
      * rewrite list_lookup_insert_ne by congruence. exact Hlv.
    + rewrite H1. exact Hgt.
    + rewrite H3, length_insert. exact Hlen.
  - destruct Hf as (H1 & H2 & H3). repeat split;
      [congruence | congruence | rewrite H3; exact Hlv | rewrite H1; exact Hgt | rewrite H3; exact Hlen].
  - destruct Hf as (H1 & H2 & H3). repeat split.
    + congruence.
    + congruence.
    + rewrite H3, list_lookup_insert_ne by congruence. exact Hlv.
    + rewrite H1. exact Hgt.
    + rewrite H3, length_insert. exact Hlen.
Qed.

(** Two [connect()] calls before React commits leak the first socket:
    the hook keeps no handle to it and the effect never captured it, so
    whatever follows (more calls of [connect()] and [disconnect()],
    effects, socket events) it stays live until the server closes it. *)
Theorem hook_double_connect_leaks (w : world) (tr : list event) (w' : world) :
  (forall o, ws w = Some o -> o < length (sockets w)) ->
  (forall o, effect_ws w = Some o -> o < length (sockets w)) ->
  Forall (fun e => e <> SockClose (length (sockets w))) tr ->
  run JSON_parse w (UserConnect :: UserConnect :: EffectFlush :: tr) = Some w' ->
  live (sockets w' !! length (sockets w)) /\
  ws w' <> Some (length (sockets w)) /\ effect_ws w' <> Some (length (sockets w)).
Proof.
  intros Hws Heff Htr Hrun. set (n := length (sockets w)) in *.
  cbn in Hrun.
  assert (H0 : orphaned n (effect_flush (connect (connect w)))).
  { unfold effect_flush, connect. cbn -[ws_close].
    case_decide as Hd.
    { exfalso. apply Heff in Hd. rewrite length_app in Hd. cbn in Hd. fold n in Hd. lia. }
    assert (Hl2 : ((sockets w ++ [CONNECTING]) ++ [CONNECTING]) !! n = Some CONNECTING).
    { rewrite lookup_app_l by (rewrite length_app; cbn; lia). apply lookup_app_last. }
    destruct (effect_ws w) as [o|] eqn:Ho.
    - assert (o < n) by (apply Heff; reflexivity).
      repeat split; cbn -[ws_close]; rewrite ?(proj1 (ws_close_ws _ _)); cbn.
      + intros H1. injection H1 as H1. rewrite length_app in H1. cbn in H1. fold n in H1. lia.
      + intros H1. injection H1 as H1. rewrite length_app in H1. cbn in H1. fold n in H1. lia.
      + rewrite ws_close_other by lia. cbn. left. exact Hl2.
      + intros o' H1. injection H1 as <-. rewrite length_app. cbn. fold n. lia.
      + rewrite ws_close_length. cbn. rewrite !length_app. cbn. fold n. lia.
    - repeat split; cbn.
      + intros H1. injection H1 as H1. rewrite length_app in H1. cbn in H1. fold n in H1. lia.
      + intros H1. injection H1 as H1. rewrite length_app in H1. cbn in H1. fold n in H1. lia.
      + left. exact Hl2.
      + intros o' H1. injection H1 as <-. rewrite length_app. cbn. fold n. lia.
      + rewrite !length_app. cbn. fold n. lia. }
  revert H0 Hrun. generalize (effect_flush (connect (connect w))) as w0.
  induction tr as [|e tr IH]; intros w0 H0 Hr; cbn in Hr.
  - injection Hr as <-. destruct H0 as (H1 & H2 & H3 & _). repeat split; assumption.
  - inversion Htr as [|e' tr' He Htr']; subst.
    destruct (step JSON_parse w0 e) as [w1|] eqn:Hs; cbn in Hr; [|discriminate].
    apply (IH Htr' w1); [|exact Hr]. exact (orphaned_step _ _ _ _ He H0 Hs).
Qed.



Lemma run_without_messages_slots (w w' : world) (tr : list event) :
  Forall not_message tr -> run JSON_parse w tr = Some w' ->
  droneState w' = droneState w /\ videoFrame w' = videoFrame w.
Proof.
  revert w. induction tr as [|e tr IH]; intros w Hnm Hr; cbn in Hr.
  - injection Hr as <-. split; reflexivity.
  - inversion Hnm as [|e' tr' He Hnm']; subst.
    destruct (step JSON_parse w e) as [w1|] eqn:Hs; cbn in Hr; [|discriminate].
    destruct (IH w1 Hnm' Hr) as [-> ->].
    rewrite (step_droneState _ _ _ _ Hs), (step_videoFrame _ _ _ _ Hs).
    destruct e; cbn in He; try contradiction; split; reflexivity.
Qed.

(** The telemetry snapshot and the video frame are written only by
    messages: closing, reopening and every other event keep them, so a
    reconnection shows the last values of the previous connection until
    new messages arrive. *)
Theorem hook_telemetry_kept_without_messages (w w' : world) (tr : list event) :
  Forall not_message tr -> run JSON_parse w tr = Some w' ->
  droneState w' = droneState w /\ videoFrame w' = videoFrame w.
Proof.
  apply run_without_messages_slots.
Qed.

End Lifecycle.

(** ** Properties of the rendering *)

Section RenderProperties.

Import Render.

Variable JSON_parse : string -> option jsval.

Lemma jsval_nested_ind (P : jsval -> Prop)
    (HU : P JUndefined) (HN : P JNull) (HB : forall b, P (JBool b))
    (HNum : forall n, P (JNum n)) (HS : forall s, P (JStr s))
    (HA : forall vs, Forall P vs -> P (JArr vs))
    (HO : forall fs, Forall (fun kv => P (snd kv)) fs -> P (JObj fs)) :
  forall v, P v.
Proof.
  fix IH 1. intros [| | | | |vs|fs].
  - exact HU.
  - exact HN.
  - apply HB.
  - apply HNum.
  - apply HS.
  - apply HA.
    exact ((fix go (l : list jsval) : Forall P l :=
              match l with
              | [] => Forall_nil P
              | x :: r => Forall_cons P x r (IH x) (go r)
              end) vs).
  - apply HO.
    exact ((fix go (l : list (string * jsval)) : Forall (fun kv => P (snd kv)) l :=
              match l with
              | [] => Forall_nil _
              | kv :: r => Forall_cons _ kv r (IH (snd kv)) (go r)
              end) fs).
Qed.

(** Rendering a child throws only React's error for a plain object. *)
Lemma react_text_thrown (v : jsval) (e : jserror) :
  react_text v = Thrown e -> e = Error "Objects are not valid as a React child".
Proof.
  revert e. induction v as [| | | | |vs Hvs|fs _] using jsval_nested_ind; cbn; try discriminate.
  - induction Hvs as [|x r Hx Hr IHr]; intros e; cbn; [discriminate|].
    cbn in IHr. unfold mbind, completion_bind in *.
    destruct (react_text x) as [s|e'] eqn:Hrx.
    + case_match eqn:Hg; [discriminate|]. intros H. injection H as <-. exact (IHr _ eq_refl).
    + intros H. injection H as <-. exact (Hx _ eq_refl).
  - intros e H. injection H as <-. reflexivity.
Qed.

Lemma opt_prop_normal (v : jsval) (k : string) (e : jserror) : opt_prop v k <> Thrown e.
Proof. destruct v; cbn; discriminate. Qed.

(** [StatusBar]'s default [batteryLevel = 0] replaces [undefined] only:
    a snapshot whose [battery] is [null] shows an empty battery reading,
    while [TelemetryPanel]'s [height ?? 0] shows a [null] height as [0]. *)
Theorem render_null_battery_blank_null_height_zero (w : world) (fs : list (string * jsval)) (v : view) :
  droneState w = JObj fs ->
  assoc_get "battery" fs = Some JNull -> assoc_get "height" fs = Some JNull ->
  DroneController_view w = Normal v ->
  battery_text (status v) = EmptyString /\ height_text (telemetry v) = "0".
Proof.
  intros Hds Hb Hh. unfold DroneController_view, StatusBar, TelemetryPanel.
  rewrite Hds. cbn [opt_prop get_prop]. rewrite Hb, Hh.
  unfold mbind, completion_bind. cbn.
  intros Hview; repeat case_match; simplify_eq; cbn; auto.
Qed.

(** A snapshot field shown as text ([battery], [temperature], [height]
    or [flight_time]) that holds an object makes the whole tree's render
    throw React's error for objects as children. *)
Theorem render_object_field_throws (w : world) (fs gs : list (string * jsval)) (k : string) :
  droneState w = JObj fs ->
  In k ["battery"; "temperature"; "height"; "flight_time"] ->
  assoc_get k fs = Some (JObj gs) ->
  DroneController_view w = Thrown (Error "Objects are not valid as a React child").
Proof.
  intros Hds Hin Hk. unfold DroneController_view, StatusBar, TelemetryPanel.
  rewrite Hds. cbn [opt_prop get_prop].
  destruct Hin as [<-|[<-|[<-|[<-|[]]]]]; rewrite Hk;
    unfold mbind, completion_bind; cbn;
    repeat case_match; simplify_eq;
    first [ reflexivity
          | exfalso; eapply opt_prop_normal; eassumption
          | f_equal; eapply react_text_thrown; eassumption ].
Qed.

(** Until the first message arrives, whatever the user does with the
    connection, the dashboard shows zeros for every reading and the
    placeholder instead of video. *)
Theorem render_zeros_until_first_message (tr : list event) (w : world) :
  run JSON_parse init_world tr = Some w -> Forall not_message tr ->
  DroneController_view w
  = Normal (mk_view (mk_status_view (if isConnected w then "Connected" else "Disconnected") "0" "0")
              FeedPlaceholder (mk_telemetry_view "0" "0" "0" "0" "0")).
Proof.
  intros Hr Hnm. destruct (run_without_messages_slots JSON_parse _ _ _ Hnm Hr) as [Hd Hv].
  unfold DroneController_view. rewrite Hd, Hv. reflexivity.
Qed.

(** A [video_frame] message replaces the picture by its [frame]: a
    truthy frame becomes the image's base64 source, and a falsy one (an
    empty string, [0], [false], [null]) blanks the feed to the
    placeholder instead of keeping the previous image. *)
Theorem video_feed_after_frame_message (w w' : world) (sid : nat) (d : string) (v f : jsval) :
  step JSON_parse w (SockMessage sid d) = Some w' ->
  JSON_parse d = Some v -> has_tag v "video_frame" = true ->
  get_prop (envelope_data v) "frame" = Normal f ->
  VideoFeed (videoFrame w')
  = if truthy f then FeedImage ("data:image/jpeg;base64," ++ to_string f) else FeedPlaceholder.
Proof.
  intros Hs Hp Ht Hf.
  rewrite (step_videoFrame JSON_parse _ _ _ Hs), onmessage_videoFrame, Hp, Ht, Hf.
  reflexivity.
Qed.

End RenderProperties.

(** ** Properties of [WifiSelector] *)

Section WifiProperties.

Import WifiSelector.
Local Open Scope list_scope.

Lemma scanNetworks_fields (st : state) :
  isScanning (scanNetworks st) = false /\ networks (scanNetworks st) = simulatedNetworks /\
  currentNetwork (scanNetworks st) = "YourHomeNetwork" /\
  wtoasts (scanNetworks st) = wtoasts st /\ timers (scanNetworks st) = timers st.
Proof. repeat split. Qed.

Lemma wifi_inv_mounted : wifi_inv mounted.
Proof. repeat split; [left; reflexivity | constructor]. Qed.

Lemma wifi_inv_step (st st' : state) (e : wifi_event) :
  wifi_inv st -> wstep st e = Some st' -> wifi_inv st'.
Proof.
  intros (Hsc & Hnet & Hcur & Htm) Hs. destruct e as [|i|]; cbn in Hs.
  - rewrite Hsc in Hs. injection Hs as <-.
    destruct (scanNetworks_fields st) as (H1 & H2 & H3 & _ & H5).
    refine (conj _ (conj _ (conj _ _))); [exact H1 | exact H2 | left; exact H3 | rewrite H5; exact Htm].
  - destruct (networks st !! i) as [n|] eqn:Hn; [|discriminate]. injection Hs as <-.
    unfold connectToNetwork. destruct (startsWith (ssid n) TELLO_NETWORK_PREFIX) eqn:Hp; cbn.
    + refine (conj _ (conj _ (conj _ _))); [exact Hsc | exact Hnet | exact Hcur |].
      apply Forall_app. split; [exact Htm|]. constructor; [|constructor].
      exists n. split; [|split; [exact Hp | reflexivity]].
      rewrite Hnet in Hn. apply list_elem_of_In. eapply list_elem_of_lookup_2. exact Hn.
    + refine (conj _ (conj _ (conj _ _))); assumption.
  - unfold timer_fires in Hs. destruct (timers st) as [|s rest] eqn:Ht; [discriminate|].
    injection Hs as <-. inversion Htm as [|s' rest' Hs Hrest]; subst.
    refine (conj _ (conj _ (conj _ _))); cbn; [exact Hsc | exact Hnet | right; exact Hs | exact Hrest].
Qed.

Lemma wifi_inv_run (tr : list wifi_event) (st0 st : state) :
  wifi_inv st0 -> wrun st0 tr = Some st -> wifi_inv st.
Proof.
  revert st0. induction tr as [|e tr IH]; intros st0 H0 Hr; cbn in Hr.
  - injection Hr as <-. exact H0.
  - destruct (wstep st0 e) as [st1|] eqn:Hs; cbn in Hr; [|discriminate].
    exact (IH st1 (wifi_inv_step _ _ _ H0 Hs) Hr).
Qed.

(** [scanNetworks] has no [await]: it sets [isScanning] back to [false]
    in the same handler, so after mounting the Refresh button is never
    disabled and never shows its spinner; every click rescans. *)
Theorem wifi_refresh_never_disabled (tr : list wifi_event) (st : state) :
  wrun mounted tr = Some st ->
  isScanning st = false /\ wstep st Refresh = Some (scanNetworks st).
Proof.
  intros Hr. destruct (wifi_inv_run _ _ _ wifi_inv_mounted Hr) as (Hsc & _).
  split; [exact Hsc|]. cbn. rewrite Hsc. reflexivity.
Qed.

(** The network shown on the trigger button is always the network the
    scan marks as connected or a [TELLO-] network of the scan: it is
    never empty, so "Not Connected" is never shown after mounting. *)
Theorem wifi_shown_network_origin (tr : list wifi_event) (st : state) :
  wrun mounted tr = Some st ->
  (currentNetwork st = "YourHomeNetwork" \/ drone_network (currentNetwork st)) /\
  currentNetwork st <> EmptyString.
Proof.
  intros Hr. destruct (wifi_inv_run _ _ _ wifi_inv_mounted Hr) as (_ & _ & Hcur & _).
  split; [exact Hcur|].
  destruct Hcur as [->|(n & Hin & Hp & ->)]; [discriminate|].
  destruct Hin as [<-|[<-|[<-|[]]]]; cbn in *; discriminate.
Qed.

(** The pending connections complete in the order they were chosen:
    choosing drone networks [s1] then [s2] and letting both timers fire
    leaves [s2] shown, after a "Connected" toast for each. *)
Theorem wifi_last_choice_wins (st st' : state) (i j : nat) (n1 n2 : WiFiNetwork) :
  timers st = [] ->
  networks st !! i = Some n1 -> networks st !! j = Some n2 ->
  startsWith (ssid n1) TELLO_NETWORK_PREFIX = true ->
  startsWith (ssid n2) TELLO_NETWORK_PREFIX = true ->
  wrun st [SelectNetwork i; SelectNetwork j; TimerFires; TimerFires] = Some st' ->
  currentNetwork st' = ssid n2 /\ timers st' = [] /\
  wtoasts st' = wtoasts st ++
    [mk_wtoast "Connecting to Drone" ("Attempting to connect to " ++ ssid n1 ++ "...") VariantDefault;
     mk_wtoast "Connecting to Drone" ("Attempting to connect to " ++ ssid n2 ++ "...") VariantDefault;
     mk_wtoast "Connected" ("Successfully connected to " ++ ssid n1) VariantDefault;
     mk_wtoast "Connected" ("Successfully connected to " ++ ssid n2) VariantDefault].
Proof.
  intros Ht Hn1 Hn2 Hp1 Hp2 Hr.
  assert (Hc : forall s st0, startsWith s TELLO_NETWORK_PREFIX = true ->
            connectToNetwork s st0
            = set_timers (timers st0 ++ [s])
                (add_wtoast (mk_wtoast "Connecting to Drone"
                               ("Attempting to connect to " ++ s ++ "...") VariantDefault) st0)).
  { intros s st0 Hs. unfold connectToNetwork. rewrite Hs. reflexivity. }
  cbn -[connectToNetwork] in Hr. rewrite Hn1 in Hr. cbn -[connectToNetwork] in Hr.
  rewrite (Hc _ _ Hp1) in Hr. cbn -[connectToNetwork] in Hr. rewrite Hn2 in Hr.
  cbn -[connectToNetwork] in Hr. rewrite (Hc _ _ Hp2) in Hr. cbn in Hr. rewrite Ht in Hr.
  cbn in Hr. injection Hr as <-. cbn. rewrite <- !app_assoc. repeat split.
Qed.

End WifiProperties.

(** ** Runs on concrete inputs *)

Module MiniJSONExamples.
Import MiniJSON.

Example parse_state_update :
  JSON_parse (jtext "{'type': 'state_update', 'data': {'battery': 87, 'height': -3}}")
  = Some (JObj [("type", JStr "state_update");
                ("data", JObj [("battery", JNum 87); ("height", JNum (-3))])]).
Proof. reflexivity. Qed.

Example parse_array : JSON_parse (jtext " [1, true, null, 'x', []] ")
  = Some (JArr [JNum 1; JBool true; JNull; JStr "x"; JArr []]).
Proof. reflexivity. Qed.

Example parse_rejects : JSON_parse "{type" = None /\ JSON_parse "01" = None
  /\ JSON_parse "[1,]" = None.
Proof. repeat split; reflexivity. Qed.

End MiniJSONExamples.

Example trace_snapshots_state :
  droneState (run_demo trace_snapshots) = JObj [("battery", JNum 79)] /\
  videoFrame (run_demo trace_snapshots) = JStr "QUJD" /\
  isConnected (run_demo trace_snapshots) = true.
Proof. vm_compute. repeat split. Qed.

Lemma C1_witness :
  droneState (run_demo trace_snapshots)
  = latest_snapshot MiniJSON.JSON_parse JNull trace_snapshots.
Proof.
  apply C1_snapshot_is_latest_state_update. vm_compute. reflexivity.
Defined.

Lemma C2_witness :
  videoFrame (run_demo trace_frames) = latest_frame MiniJSON.JSON_parse JNull trace_frames.
Proof.
  apply C2_frame_is_latest_video_frame. vm_compute. reflexivity.
Defined.

(** C2 as stated fails: the last [video_frame] message has no [data], its
    handler throws a [TypeError], and the earlier frame [BBBB] is still
    the current frame, not the message's (undefined) [data.frame]. *)
Lemma C2_counterexample :
  ~ (forall tr w, run MiniJSON.JSON_parse init_world tr = Some w ->
       videoFrame w = claimed_latest_frame MiniJSON.JSON_parse JNull tr).
Proof.
  intros H.
  assert (Hrun : run MiniJSON.JSON_parse init_world trace_frames
                 = Some (run_demo trace_frames)) by (vm_compute; reflexivity).
  specialize (H _ _ Hrun). vm_compute in H. discriminate H.
Qed.

Lemma C3_witness :
  onmessage MiniJSON.JSON_parse (msg "{'type': 'ping', 'data': 1}") world_open
  = (world_open, Normal tt) /\
  step MiniJSON.JSON_parse world_open (SockMessage 0 (msg "{'type': 'ping', 'data': 1}"))
  = Some world_open.
Proof.
  apply (C3_unrecognized_tag_ignored MiniJSON.JSON_parse 0 _
           (JObj [("type", JStr "ping"); ("data", JNum 1)]) (JStr "ping")).
  - vm_compute. reflexivity.
  - vm_compute. reflexivity.
  - reflexivity.
  - discriminate.
  - discriminate.
Defined.

Lemma C4_witness :
  exists w', step MiniJSON.JSON_parse world_open (SockMessage 0 "{type") = Some w' /\
    (w' = world_open \/ exists e, w' = report_uncaught e world_open) /\
    sockets w' !! 0 = Some OPEN.
Proof.
  apply C4_malformed_message_recoverable.
  - vm_compute. reflexivity.
  - left. vm_compute. reflexivity.
Defined.

Lemma C7_witness :
  exists w1, run MiniJSON.JSON_parse world_open [UserConnect; EffectFlush] = Some w1 /\
    ws w1 = Some (length (sockets world_open)) /\ 0 <> length (sockets world_open) /\
    sockets w1 !! 0 = Some CLOSING /\
    sockets w1 !! length (sockets world_open) = Some CONNECTING /\
    (forall d, step MiniJSON.JSON_parse w1 (SockMessage 0 d) = None) /\
    exists w3, run MiniJSON.JSON_parse w1
                 [SockOpen (length (sockets world_open)); SockClose 0] = Some w3 /\
      ws w3 = Some (length (sockets world_open)) /\
      sockets w3 !! length (sockets world_open) = Some OPEN /\
      isConnected w3 = false.
Proof.
  apply C7_reopen_replaces_handle; vm_compute; reflexivity.
Defined.

(** C7 as stated fails: the hook holds socket 1 and it is open, yet
    [isConnected] is [false], written by the replaced socket's [onclose]. *)
Lemma C7_counterexample :
  run MiniJSON.JSON_parse init_world trace_reopen = Some (run_demo trace_reopen) /\
  ws (run_demo trace_reopen) = Some 1 /\
  sockets (run_demo trace_reopen) !! 1 = Some OPEN /\
  isConnected (run_demo trace_reopen) = false.
Proof. vm_compute. repeat split. Qed.

Lemma C8_witness :
  isConnected (run_demo [UserConnect; EffectFlush; SockOpen 0]) = true.
Proof.
  apply (C8_isConnected_open_close_only MiniJSON.JSON_parse
           (run_demo [UserConnect; EffectFlush]) _ (SockOpen 0)).
  vm_compute. reflexivity.
Defined.



Lemma C10_witness :
  videoFrame (run_demo trace_snapshots)
  = videoFrame (run_demo (removelast trace_snapshots)).
Proof.
  destruct (C10_tags_write_disjoint_slots MiniJSON.JSON_parse 0
    (msg "{'type': 'state_update', 'data': {'battery': 79}}")
    (run_demo (removelast trace_snapshots)) (run_demo trace_snapshots))
    as (_ & Hv & _).
  - vm_compute. reflexivity.
  - apply (Hv (JObj [("type", JStr "state_update"); ("data", JObj [("battery", JNum 79)])]));
      vm_compute; reflexivity.
Defined.

Lemma C5_witness :
  snd (DroneCommands.useDroneCommands MiniJSON.JSON_parse backend_500
         (DroneCommands.OpMove "forward" 30))
  = Thrown (Error "Command failed").
Proof.
  destruct (C5_command_outcome MiniJSON.JSON_parse backend_500
              (DroneCommands.OpMove "forward" 30)) as (req & _ & _ & Hfail & _).
  apply (Hfail 500%Z "{}").
  - reflexivity.
  - lia.
Defined.

(** C5 as stated fails: a 2xx response whose body is not JSON does not
    resolve; the operation rejects with the [SyntaxError] of
    [response.json()]. *)
Lemma C5_counterexample :
  DroneCommands.response_ok 200 = true /\
  snd (DroneCommands.useDroneCommands MiniJSON.JSON_parse
         (fun _ => DroneCommands.Response 200 "OK") DroneCommands.OpTakeoff)
  = Thrown SyntaxError.
Proof. vm_compute. split; reflexivity. Qed.

Section DashboardRuns.

Import Dashboard.
Local Open Scope list_scope.

Lemma dashboard_never_sends_takeoff_witness :
  Forall (fun r => DroneCommands.req_url r <> takeoff_url) (sent (ui_final backend_ok ui_trace)).
Proof.
  apply (dashboard_never_sends_takeoff MiniJSON.JSON_parse backend_ok ui_trace).
  vm_compute. reflexivity.
Defined.

Lemma dashboard_tracking_flips_without_rollback_witness :
  isTracking (click MiniJSON.JSON_parse backend_500 TrackButton ui_open) = true.
Proof.
  destruct (dashboard_tracking_flips_without_rollback MiniJSON.JSON_parse backend_500 ui_open)
    as [Ht _].
  - vm_compute. reflexivity.
  - rewrite Ht. vm_compute. reflexivity.
Defined.

Lemma dashboard_speed_slider_without_rollback_witness :
  speed (click MiniJSON.JSON_parse backend_500 (SpeedSlider 80) ui_open) = 80%Z.
Proof.
  apply (dashboard_speed_slider_without_rollback MiniJSON.JSON_parse backend_500 ui_open 80).
  vm_compute. reflexivity.
Defined.

Lemma dashboard_failure_reporting_witness :
  toasts (click MiniJSON.JSON_parse backend_500 TrackButton ui_open) = toasts ui_open /\
  rejections (click MiniJSON.JSON_parse backend_500 TrackButton ui_open)
    = rejections ui_open ++ [Error "Command failed"].
Proof.
  destruct (dashboard_failure_reporting MiniJSON.JSON_parse backend_500 TrackButton ui_open 500 "{}")
    as [_ Hrej].
  - vm_compute. reflexivity.
  - intros r. reflexivity.
  - lia.
  - apply Hrej. right. right. left. reflexivity.
Defined.

Lemma dashboard_motion_vocabulary_witness :
  Forall panel_motion_request (sent (ui_final backend_ok ui_trace)).
Proof.
  apply (dashboard_motion_vocabulary MiniJSON.JSON_parse backend_ok ui_trace).
  vm_compute. reflexivity.
Defined.

Lemma dashboard_no_socket_without_rest_witness :
  sockets (hook (ui_final backend_500
    [Click ConnectionButton; Browser EffectFlush; Click TakeoffLandButton;
     Click TrackButton; Click ConnectionButton; Browser EffectFlush])) = [] /\
  ws (hook (ui_final backend_500
    [Click ConnectionButton; Browser EffectFlush; Click TakeoffLandButton;
     Click TrackButton; Click ConnectionButton; Browser EffectFlush])) = None.
Proof.
  apply (dashboard_no_socket_without_rest MiniJSON.JSON_parse backend_500
    [Click ConnectionButton; Browser EffectFlush; Click TakeoffLandButton;
     Click TrackButton; Click ConnectionButton; Browser EffectFlush]).
  - intros r _. reflexivity.
  - repeat constructor.
  - vm_compute. reflexivity.
Defined.

End DashboardRuns.


Lemma hook_single_live_socket_witness :
  ws (run_demo trace_reopen) = Some 1.
Proof.
  apply (hook_single_live_socket MiniJSON.JSON_parse trace_reopen).
  - unfold trace_reopen.
    repeat first [ apply committed_nil | apply committed_connect | apply committed_disconnect
                 | apply committed_other; [discriminate | discriminate |] ].
  - vm_compute. reflexivity.
  - vm_compute. right. reflexivity.
Defined.

Lemma hook_double_connect_leaks_witness :
  live (sockets (run_demo (UserConnect :: UserConnect :: EffectFlush :: trace_leak_tail))
          !! length (sockets init_world)) /\
  ws (run_demo (UserConnect :: UserConnect :: EffectFlush :: trace_leak_tail))
    <> Some (length (sockets init_world)) /\
  effect_ws (run_demo (UserConnect :: UserConnect :: EffectFlush :: trace_leak_tail))
    <> Some (length (sockets init_world)).
Proof.
  apply (hook_double_connect_leaks MiniJSON.JSON_parse init_world trace_leak_tail).
  - discriminate.
  - discriminate.
  - repeat constructor; discriminate.
  - vm_compute. reflexivity.
Defined.

Lemma hook_telemetry_kept_without_messages_witness :
  droneState (run_from (run_demo trace_snapshots) trace_reconnect)
    = droneState (run_demo trace_snapshots) /\
  videoFrame (run_from (run_demo trace_snapshots) trace_reconnect)
    = videoFrame (run_demo trace_snapshots).
Proof.
  apply (hook_telemetry_kept_without_messages MiniJSON.JSON_parse _ _ trace_reconnect).
  - repeat constructor.
  - vm_compute. reflexivity.
Defined.

Lemma render_null_battery_blank_null_height_zero_witness :
  exists v, Render.DroneController_view world_null_readings = Normal v /\
    Render.battery_text (Render.status v) = EmptyString /\
    Render.height_text (Render.telemetry v) = "0".
Proof.
  eexists. split; [vm_compute; reflexivity|].
  apply (render_null_battery_blank_null_height_zero world_null_readings
           [("battery", JNull); ("height", JNull); ("temperature", JNum 21)]);
    vm_compute; reflexivity.
Defined.

Lemma render_object_field_throws_witness :
  Render.DroneController_view world_object_battery
  = Thrown (Error "Objects are not valid as a React child").
Proof.
  apply (render_object_field_throws world_object_battery
           [("battery", JObj [("percent", JNum 80)])] [("percent", JNum 80)] "battery").
  - vm_compute. reflexivity.
  - left. reflexivity.
  - reflexivity.
Defined.

Lemma render_zeros_until_first_message_witness :
  Render.DroneController_view (run_demo [UserConnect; EffectFlush; SockOpen 0; UserDisconnect; EffectFlush])
  = Normal (Render.mk_view (Render.mk_status_view "Connected" "0" "0") Render.FeedPlaceholder
              (Render.mk_telemetry_view "0" "0" "0" "0" "0")).
Proof.
  apply (render_zeros_until_first_message MiniJSON.JSON_parse
           [UserConnect; EffectFlush; SockOpen 0; UserDisconnect; EffectFlush]).
  - vm_compute. reflexivity.
  - repeat constructor.
Defined.

Lemma video_feed_after_frame_message_witness :
  Render.VideoFeed (videoFrame world_frame) = Render.FeedImage "data:image/jpeg;base64,QUJD" /\
  exists w', step MiniJSON.JSON_parse world_frame
               (SockMessage 0 (msg "{'type': 'video_frame', 'data': {'frame': ''}}")) = Some w' /\
    Render.VideoFeed (videoFrame w') = Render.FeedPlaceholder.
Proof.
  split; [vm_compute; reflexivity|].
  assert (Hs : step MiniJSON.JSON_parse world_frame
                 (SockMessage 0 (msg "{'type': 'video_frame', 'data': {'frame': ''}}"))
               = Some (run_from world_frame
                         [SockMessage 0 (msg "{'type': 'video_frame', 'data': {'frame': ''}}")]))
    by (vm_compute; reflexivity).
  eexists. split; [exact Hs|].
  rewrite (video_feed_after_frame_message MiniJSON.JSON_parse _ _ _ _
             (JObj [("type", JStr "video_frame"); ("data", JObj [("frame", JStr EmptyString)])])
             (JStr EmptyString) Hs).
  - reflexivity.
  - vm_compute. reflexivity.
  - reflexivity.
  - reflexivity.
Defined.

Section WifiRuns.

Import WifiSelector.

Lemma wifi_refresh_never_disabled_witness :
  isScanning (wifi_final wifi_trace) = false /\
  wstep (wifi_final wifi_trace) Refresh = Some (scanNetworks (wifi_final wifi_trace)).
Proof.
  apply (wifi_refresh_never_disabled wifi_trace). vm_compute. reflexivity.
Defined.

Lemma wifi_shown_network_origin_witness :
  (currentNetwork (wifi_final wifi_trace) = "YourHomeNetwork" \/
   drone_network (currentNetwork (wifi_final wifi_trace))) /\
  currentNetwork (wifi_final wifi_trace) <> EmptyString.
Proof.
  apply (wifi_shown_network_origin wifi_trace). vm_compute. reflexivity.
Defined.

Lemma wifi_last_choice_wins_witness :
  currentNetwork (wifi_final [SelectNetwork 0; SelectNetwork 2; TimerFires; TimerFires])
  = "TELLO-YY5678".
Proof.
  apply (wifi_last_choice_wins mounted _ 0 2 (mk_network "TELLO-XX1234" 80 false)
           (mk_network "TELLO-YY5678" 70 false)); vm_compute; reflexivity.
Defined.

End WifiRuns.
